(** * Federated-learning experiment drivers: a shallow embedding

    The development follows the three Python modules of the repository:
    - [federated_trainer]        (optimization/main/federated_trainer.py)
    - [federated_emnist]         (optimization/emnist/federated_emnist.py)
    - [federated_stackoverflow]  (optimization/stackoverflow/federated_stackoverflow.py)

    The drivers are configuration code: they build model, loss and metric
    builders, an iterative process, a client sampler and two evaluation
    functions, and hand them to the round loop.  Builders and closures are
    embedded as first-order data (a constructor per builder, a record per
    closure holding the variables it captures), Python exceptions as the
    [Raise] branch of [result], Python ints as [Z], [tf.data] datasets as
    lists in iteration order, dicts as [gmap].

    Part I holds the definitions, Part II the theorems. *)

From stdpp Require Import gmap strings list fin_maps.
From Stdlib Require Import ZArith Lia.

Open Scope Z_scope.

(** * Part I: definitions *)

(** ** Exceptions and fallible computations *)

Inductive exn : Type :=
  | ValueError (msg : string)
  | UsageError (msg : string)
  | KeyError (key : string)
  | IndexError
  | ConfigurationError (clients_per_round : Z) (available_clients : nat)
  | DataResolutionError (client_id : string).

Inductive result (A : Type) : Type :=
  | Ok (a : A)
  | Raise (e : exn).
Arguments Ok {A} a.
Arguments Raise {A} e.

(** Sequencing stops at the first exception; [x ← m; k] is stdpp's
    notation for [mbind]. *)
#[global] Instance result_ret : MRet result := fun _ a => Ok a.
#[global] Instance result_bind : MBind result := fun _ _ k m =>
  match m with
  | Ok a => k a
  | Raise e => Raise e
  end.

(** ** Python built-ins used by the drivers *)

Module py.

(** Strings stand for Python [str] values over the code points below 256,
    a character for a code point. *)

(** The characters [repr] treats specially: the two quotes and the
    backslash. *)
Definition single_quote : Ascii.ascii := Ascii.ascii_of_N 39.
Definition double_quote : Ascii.ascii := Ascii.ascii_of_N 34.
Definition backslash : Ascii.ascii := Ascii.ascii_of_N 92.

Fixpoint has_char (c : Ascii.ascii) (s : string) : bool :=
  match s with
  | EmptyString => false
  | String c' s' => Ascii.eqb c c' || has_char c s'
  end.

(** A lower-case hexadecimal digit. *)
Definition hex_digit (n : N) : Ascii.ascii :=
  Ascii.ascii_of_N (if (n <? 10)%N then 48 + n else 87 + n)%N.

(** A code point [repr] does not print as it is: the control characters,
    and below 256 the code points 128 to 160 and the soft hyphen. *)
Definition unprintable (n : N) : bool :=
  ((n <? 32) || (n =? 127) || ((128 <=? n) && (n <=? 160)) || (n =? 173))%N.

(** What [repr] writes for a character between the quotes [quote]. *)
Definition repr_char (quote c : Ascii.ascii) : string :=
  let n := Ascii.N_of_ascii c in
  if Ascii.eqb c quote || Ascii.eqb c backslash then String backslash (String c "")
  else if (n =? 9)%N then String backslash "t"
  else if (n =? 10)%N then String backslash "n"
  else if (n =? 13)%N then String backslash "r"
  else if unprintable n
  then String backslash
         ("x" +:+ String (hex_digit (n / 16)) (String (hex_digit (n mod 16)) ""))
  else String c "".

Fixpoint repr_chars (quote : Ascii.ascii) (s : string) : string :=
  match s with
  | EmptyString => ""
  | String c s' => repr_char quote c +:+ repr_chars quote s'
  end.

(** [repr] of a [str]: between single quotes, or between double quotes
    when the string holds a single quote and no double quote; the quote
    in use, the backslash and the unprintable characters are escaped. *)
Definition repr_str (s : string) : string :=
  let quote :=
    if has_char single_quote s && negb (has_char double_quote s)
    then double_quote else single_quote in
  String quote (repr_chars quote s +:+ String quote "").

Fixpoint join (sep : string) (l : list string) : string :=
  match l with
  | [] => ""
  | x :: l' =>
      match l' with
      | [] => x
      | _ :: _ => x +:+ sep +:+ join sep l'
      end
  end.

(** [str] of a list of [str]. *)
Definition str_list (l : list string) : string :=
  "[" +:+ join ", " (repr_str <$> l) +:+ "]".

(** [str] of an [Optional[str]]: the string itself, or [None]. *)
Definition str_optional (o : option string) : string := default "None" o.

(** [l[i]] for a non-negative index. *)
Definition index {A : Type} (l : list A) (i : nat) : result A :=
  match l !! i with
  | Some x => Ok x
  | None => Raise IndexError
  end.

(** [s.startswith(prefix)]. *)
Definition startswith (prefix s : string) : bool := String.prefix prefix s.

(** [s[n:]] for a non-negative [n]. *)
Fixpoint slice_from (n : nat) (s : string) : string :=
  match n, s with
  | O, _ => s
  | S n', String _ s' => slice_from n' s'
  | S _, EmptyString => EmptyString
  end.

(** [needle in hay] on strings. *)
Definition contains (needle hay : string) : Prop :=
  exists pre post : string, hay = pre +:+ needle +:+ post.

(** [needle in hay], decided. *)
Fixpoint contains_b (needle hay : string) : bool :=
  startswith needle hay
  || match hay with
     | EmptyString => false
     | String _ hay' => contains_b needle hay'
     end.

End py.

(** ** [tf.data.Dataset] as the list of its elements in iteration order *)

Module tf_data.

(** [take] and [skip] convert their count to an [int64] tensor; a Python
    int outside [int64] does not convert. *)
Definition is_int64 (n : Z) : bool := (- 2 ^ 63 <=? n) && (n <? 2 ^ 63).

(** The [ValueError] of a count that does not convert.  Its message is
    TensorFlow's; nothing here depends on its text. *)
Definition count_error : exn :=
  ValueError "count does not convert to an int64 tensor".

(** [Dataset.take(count)]: the first [count] elements; every element when
    [count] is negative ([-1] in the documentation) or exceeds the size. *)
Definition take {A : Type} (count : Z) (ds : list A) : result (list A) :=
  if is_int64 count
  then Ok (if count <? 0 then ds else list.take (Z.to_nat count) ds)
  else Raise count_error.

(** [Dataset.skip(count)]: all but the first [count] elements; no element
    when [count] is negative ([-1] in the documentation) or exceeds the
    size. *)
Definition skip {A : Type} (count : Z) (ds : list A) : result (list A) :=
  if is_int64 count
  then Ok (if count <? 0 then [] else list.drop (Z.to_nat count) ds)
  else Raise count_error.

(** The number of elements [take] keeps and [skip] drops:
    [min count (length ds)], and all of them for a negative count. *)
Definition kept {A : Type} (count : Z) (ds : list A) : nat :=
  if count <? 0 then length ds else Nat.min (Z.to_nat count) (length ds).

(** [Dataset.concatenate(other)]. *)
Definition concatenate {A : Type} (ds other : list A) : list A := ds ++ other.

End tf_data.

(** ** Tensors

    A tensor is its dtype, its shape and its values in row-major order.
    The only floating-point values that occur are casts of [int64] values;
    such a [float32] is an integer, and is represented by it. *)

Module tf.

Inductive dtype : Type := int64 | float32.

Record Tensor : Type := mkTensor {
  t_dtype : dtype;
  t_shape : list nat;
  t_values : list Z
}.

(** [tf.squeeze]: drops every dimension of size 1. *)
Definition squeeze (t : Tensor) : Tensor :=
  {| t_dtype := t_dtype t;
     t_shape := filter (fun d => d ≠ 1%nat) (t_shape t);
     t_values := t_values t |}.

(** The [float32] nearest to a non-negative integer: 24 significant bits,
    ties to even. *)
Definition round_float32_nonneg (m : Z) : Z :=
  let e := Z.log2 m in
  if e <? 24 then m
  else
    let sh := e - 23 in
    let q := Z.shiftr m sh in
    let r := Z.land m (Z.ones sh) in
    let half := Z.shiftl 1 (sh - 1) in
    let q' := if (half <? r) || ((r =? half) && Z.odd q) then q + 1 else q in
    Z.shiftl q' sh.

Definition round_float32 (n : Z) : Z :=
  Z.sgn n * round_float32_nonneg (Z.abs n).

(** [tf.cast(t, dtype)] on the tensors above. *)
Definition cast (t : Tensor) (d : dtype) : Tensor :=
  match d with
  | float32 =>
      {| t_dtype := float32; t_shape := t_shape t;
         t_values := round_float32 <$> t_values t |}
  | int64 =>
      {| t_dtype := int64; t_shape := t_shape t; t_values := t_values t |}
  end.

(** A scalar (shape [[]]) and a vector of one element (shape [[1]]). *)
Definition scalar (d : dtype) (v : Z) : Tensor :=
  {| t_dtype := d; t_shape := []; t_values := [v] |}.
Definition vector1 (d : dtype) (v : Z) : Tensor :=
  {| t_dtype := d; t_shape := [1%nat]; t_values := [v] |}.

End tf.

(** ** Keras builders as data *)

Module keras.

(** The model builders of [emnist_models] and [stackoverflow_models], with
    the keyword arguments the drivers fix by [functools.partial]. *)
Inductive model_builder : Type :=
  | create_conv_dropout_model (only_digits : bool)
  | create_two_hidden_layer_model (only_digits : bool)
  | create_recurrent_model
      (vocab_size num_oov_buckets embedding_size latent_size num_layers : Z)
      (shared_embedding : bool).

Inductive loss_builder : Type :=
  | SparseCategoricalCrossentropy (from_logits : bool).

(** [tf.keras.metrics] and [keras_metrics] constructors. *)
Inductive metric : Type :=
  | SparseCategoricalAccuracy
  | MaskedCategoricalAccuracy (name : string) (masked_tokens : list Z)
  | NumBatchesCounter
  | NumTokensCounter (masked_tokens : list Z).

End keras.

(** ** [tff.learning.from_keras_model] and [tff.simulation.ClientData] *)

Module tff.

(** The arguments of [tff.learning.from_keras_model]: what a [tff_model_fn]
    of a driver returns. *)
Record Model (Spec : Type) : Type := from_keras_model {
  keras_model : keras.model_builder;
  input_spec : Spec;
  loss : keras.loss_builder;
  metrics : list keras.metric
}.
Arguments from_keras_model {Spec}.
Arguments keras_model {Spec}.
Arguments input_spec {Spec}.
Arguments loss {Spec}.
Arguments metrics {Spec}.

(** A federated dataset: the client ids, the dataset of a client ([None]
    when the provider cannot resolve the id), and the dataset over all
    clients. *)
Record ClientData (Elt : Type) : Type := mkClientData {
  client_ids : list string;
  create_tf_dataset_for_client : string -> option (list Elt);
  create_tf_dataset_from_all_clients : list Elt
}.
Arguments mkClientData {Elt}.
Arguments client_ids {Elt}.
Arguments create_tf_dataset_for_client {Elt}.
Arguments create_tf_dataset_from_all_clients {Elt}.

(** The two operations of a [tff.templates.IterativeProcess] of type [P],
    over server states [S], client datasets [list Elt] and round metrics
    [T]: [initialize : ( -> S)] and [next : <S, {B*}> -> <S, T>]. *)
Class IterativeProcess (P S T Elt : Type) : Type := {
  initialize : P -> S;
  next : P -> S -> list (list Elt) -> S * T
}.

End tff.

(** ** [keras_metrics]: masked accuracy and counters *)

Module keras_metrics.

(** A batch as the metrics see it: the ground-truth token and the predicted
    token of every position. *)
Record Batch : Type := mkBatch {
  y_true : list Z;
  y_pred : list Z
}.

(** Modelled from the spec: optimization/shared/keras_metrics.py is not
    among the sources.  A position counts only if its ground-truth token is
    not in the exclusion set [masked_tokens]. *)
Definition counted (masked_tokens : list Z) (b : Batch) : list (Z * Z) :=
  filter (fun p => p.1 ∉ masked_tokens) (zip (y_true b) (y_pred b)).

(** Modelled from the spec: the number of tokens of a batch outside the
    exclusion set, as [NumTokensCounter] accumulates it. *)
Definition num_tokens (masked_tokens : list Z) (b : Batch) : Z :=
  Z.of_nat (length (filter (fun y => y ∉ masked_tokens) (y_true b))).

(** Modelled from the spec: numerator and denominator of masked accuracy
    over a batch. *)
Definition num_correct (masked_tokens : list Z) (b : Batch) : Z :=
  Z.of_nat (length (filter (fun p => p.1 = p.2) (counted masked_tokens b))).
Definition num_counted (masked_tokens : list Z) (b : Batch) : Z :=
  Z.of_nat (length (counted masked_tokens b)).

Definition total (f : Batch -> Z) (batches : list Batch) : Z :=
  foldr (fun b acc => f b + acc) 0 batches.

(** The name under which a metric is reported. *)
Definition metric_name (m : keras.metric) : string :=
  match m with
  | keras.SparseCategoricalAccuracy => "sparse_categorical_accuracy"
  | keras.MaskedCategoricalAccuracy name _ => name
  | keras.NumBatchesCounter => "num_batches"
  | keras.NumTokensCounter _ => "num_tokens"
  end.

(** Modelled from the spec: the value a metric reports after the batches a
    client processed.  A counter is an [int64[1]]; an accuracy is reported
    as the pair of its numerator and denominator. *)
Definition metric_value (m : keras.metric) (batches : list Batch) : tf.Tensor :=
  match m with
  | keras.SparseCategoricalAccuracy =>
      tf.mkTensor tf.float32 [2%nat]
        [total (num_correct []) batches; total (num_counted []) batches]
  | keras.MaskedCategoricalAccuracy _ masked =>
      tf.mkTensor tf.float32 [2%nat]
        [total (num_correct masked) batches; total (num_counted masked) batches]
  | keras.NumBatchesCounter =>
      tf.vector1 tf.int64 (Z.of_nat (length batches))
  | keras.NumTokensCounter masked =>
      tf.vector1 tf.int64 (total (num_tokens masked) batches)
  end.

(** Modelled from the spec: the locally reported outputs of a client, a
    mapping from metric name to reported value. *)
Definition report_local_outputs (metrics : list keras.metric)
    (batches : list Batch) : gmap string tf.Tensor :=
  foldr (fun m acc => <[metric_name m := metric_value m batches]> acc) ∅ metrics.

End keras_metrics.

(** ** [fed_avg_schedule]: the federated averaging process *)

Module fed_avg_schedule.

(** [ServerState.assign_weights_to_keras_model], the only weight-assignment
    function of this process. *)
Inductive assign_weights_fn : Type :=
  | ServerState_assign_weights_to_keras_model.

(** What a client returns from a round: its locally reported outputs and
    the number of examples it processed. *)
Record ClientOutput : Type := mkClientOutput {
  local_outputs : gmap string tf.Tensor;
  num_examples : Z
}.

(** The arguments of [build_fed_avg_process]. *)
Record FedAvgProcess (Spec Opt Lr PC : Type) : Type := build_fed_avg_process {
  model_fn : tff.Model Spec;
  client_optimizer_fn : Opt;
  client_lr : Lr;
  server_optimizer_fn : Opt;
  server_lr : Lr;
  client_weight_fn : option (gmap string tf.Tensor -> result tf.Tensor);
  dataset_preprocess_comp : option PC
}.
Arguments build_fed_avg_process {Spec Opt Lr PC}.
Arguments model_fn {Spec Opt Lr PC}.
Arguments client_weight_fn {Spec Opt Lr PC}.
Arguments dataset_preprocess_comp {Spec Opt Lr PC}.

(** Modelled from the spec: optimization/shared/fed_avg_schedule.py is not
    among the sources.  The weight of a client in the federated average of
    model deltas: the task's [client_weight_fn] applied to the locally
    reported outputs, and by default the number of examples the client
    processed this round. *)
Definition client_weight {Spec Opt Lr PC : Type}
    (p : FedAvgProcess Spec Opt Lr PC) (out : ClientOutput) : result tf.Tensor :=
  match client_weight_fn p with
  | Some f => f (local_outputs out)
  | None => Ok (tf.scalar tf.int64 (num_examples out))
  end.

End fed_avg_schedule.

(** ** [training_utils]: the client sampler and the evaluation functions *)

Module training_utils.

(** The pseudo-random generator behind the sampler: the generator state
    for a seed and a round index, the number a state yields, and the next
    state. *)
Class RandomState : Type := {
  seeded : Z -> nat -> Z;
  random_int : Z -> Z;
  advance : Z -> Z
}.

(** A draw of [size] elements of [pool] without replacement: the drawn
    element leaves the pool before the next draw. *)
Fixpoint choice `{RandomState} {A : Type} (g : Z) (pool : list A) (size : nat)
    : list A :=
  match size with
  | O => []
  | S size' =>
      let i := Z.to_nat (random_int g `mod` Z.of_nat (length pool)) in
      match pool !! i with
      | Some x => x :: choice (advance g) (delete i pool) size'
      | None => []
      end
  end.

(** Modelled from the spec: utils/training_utils.py is not among the
    sources.  [sample(round_index, clients_per_round, seed)] over the
    client ids of the training data: a configuration error when more
    clients are asked for than there are; else a draw without replacement,
    from the generator state of [(seed, round_index)] when a seed is
    present, and from the entropy of the run when it is absent. *)
Definition sample `{RandomState} (client_ids : list string) (entropy : Z)
    (round_index : nat) (clients_per_round : Z) (seed : option Z)
    : result (list string) :=
  if Z.of_nat (length client_ids) <? clients_per_round
  then Raise (ConfigurationError clients_per_round (length client_ids))
  else
    let g := match seed with
             | Some s => seeded s round_index
             | None => entropy
             end in
    Ok (choice g client_ids (Z.to_nat clients_per_round)).

(** The closure [build_client_datasets_fn] returns, as the variables it
    captures. *)
Record ClientDatasetsFn (Elt : Type) : Type := mkClientDatasetsFn {
  train_dataset : tff.ClientData Elt;
  train_clients_per_round : Z;
  random_seed : option Z
}.
Arguments mkClientDatasetsFn {Elt}.
Arguments train_dataset {Elt}.
Arguments train_clients_per_round {Elt}.
Arguments random_seed {Elt}.

(** Modelled from the spec: a configuration error is detected when the
    sampler is built, before round 0. *)
Definition build_client_datasets_fn {Elt : Type}
    (train_dataset : tff.ClientData Elt) (train_clients_per_round : Z)
    (random_seed : option Z) : result (ClientDatasetsFn Elt) :=
  let available := length (tff.client_ids train_dataset) in
  if Z.of_nat available <? train_clients_per_round
  then Raise (ConfigurationError train_clients_per_round available)
  else Ok (mkClientDatasetsFn train_dataset train_clients_per_round random_seed).

(** Modelled from the spec: the datasets of the sampled clients, in the
    order of the draw; an id the provider cannot resolve is fatal. *)
Fixpoint resolve {Elt : Type} (data : tff.ClientData Elt) (ids : list string)
    : result (list (list Elt)) :=
  match ids with
  | [] => Ok []
  | id :: ids' =>
      match tff.create_tf_dataset_for_client data id with
      | Some ds => rest ← resolve data ids'; Ok (ds :: rest)
      | None => Raise (DataResolutionError id)
      end
  end.

(** Modelled from the spec: a call [client_datasets_fn(round_num)]. *)
Definition client_datasets `{RandomState} {Elt : Type}
    (fn : ClientDatasetsFn Elt) (entropy : Z) (round_num : nat)
    : result (list (list Elt)) :=
  ids ← sample (tff.client_ids (train_dataset fn)) entropy round_num
          (train_clients_per_round fn) (random_seed fn);
  resolve (train_dataset fn) ids.

(** Modelled from the spec: the sampler run over a sequence of round
    indices; the [n]-th call of a run sees the [n]-th entropy of that
    run. *)
Fixpoint sample_rounds `{RandomState} (client_ids : list string)
    (entropy : nat -> Z) (calls : nat) (clients_per_round : Z)
    (seed : option Z) (rounds : list nat) : list (result (list string)) :=
  match rounds with
  | [] => []
  | r :: rounds' =>
      sample client_ids (entropy calls) r clients_per_round seed
        :: sample_rounds client_ids entropy (S calls) clients_per_round seed rounds'
  end.

(** The closure [build_evaluate_fn] returns, as the variables it
    captures. *)
Record EvaluateFn (EE A : Type) : Type := build_evaluate_fn {
  eval_dataset : list EE;
  model_builder : keras.model_builder;
  loss_builder : keras.loss_builder;
  metrics_builder : list keras.metric;
  assign_weights_to_keras_model : A
}.
Arguments build_evaluate_fn {EE A}.
Arguments eval_dataset {EE A}.
Arguments model_builder {EE A}.
Arguments loss_builder {EE A}.
Arguments metrics_builder {EE A}.
Arguments assign_weights_to_keras_model {EE A}.

(** The Keras operations behind an evaluation: building a model, copying
    a server state into it, and computing the metrics of a model over a
    dataset. *)
Class Keras (A S EE KModel Metrics : Type) : Type := {
  build : keras.model_builder -> KModel;
  assign : A -> S -> KModel -> KModel;
  keras_evaluate :
    KModel -> keras.loss_builder -> list keras.metric -> list EE -> Metrics
}.

(** Modelled from the spec: a call [evaluate_fn(state)] instantiates a
    model, copies the server state into it and evaluates it over the
    dataset of the closure. *)
Definition evaluate {A S EE KModel Metrics : Type}
    `{Keras A S EE KModel Metrics} (fn : EvaluateFn EE A) (state : S) : Metrics :=
  let model := assign (assign_weights_to_keras_model fn) state
                 (build (model_builder fn)) in
  keras_evaluate model (loss_builder fn) (metrics_builder fn) (eval_dataset fn).

End training_utils.

(** ** [training_loop]: the round loop *)

Module training_loop.

(** The keyword arguments of [training_loop.run]. *)
Record RunArgs (P Elt A : Type) : Type := mkRunArgs {
  iterative_process : P;
  client_datasets_fn : training_utils.ClientDatasetsFn Elt;
  validation_fn : training_utils.EvaluateFn Elt A;
  test_fn : training_utils.EvaluateFn Elt A
}.
Arguments mkRunArgs {P Elt A}.
Arguments iterative_process {P Elt A}.
Arguments client_datasets_fn {P Elt A}.
Arguments validation_fn {P Elt A}.
Arguments test_fn {P Elt A}.

(** What is fixed for one run of the loop and is no argument of the
    drivers: the number of rounds, the rounds after which validation is
    due, and the entropy the [n]-th sampler call finds when no seed is
    given. *)
Record Run : Type := mkRun {
  total_rounds : nat;
  eval_due : nat -> bool;
  entropy : nat -> Z
}.

(** The observable steps of a run, in the order they happen. *)
Inductive event (St T Elt Metrics : Type) : Type :=
  | Initialize (state : St)
  | ClientDatasets (round_num : nat) (datasets : list (list Elt))
  | Next (round_num : nat) (state : St) (datasets : list (list Elt))
  | Commit (round_num : nat) (state : St) (metrics : T)
  | Validation (round_num : nat) (metrics : Metrics)
  | Test (metrics : Metrics).
Arguments Initialize {St T Elt Metrics}.
Arguments ClientDatasets {St T Elt Metrics}.
Arguments Next {St T Elt Metrics}.
Arguments Commit {St T Elt Metrics}.
Arguments Validation {St T Elt Metrics}.
Arguments Test {St T Elt Metrics}.

(** Modelled from the spec: utils/training_loop.py is not among the
    sources.  [rounds n r state] drives the [n] rounds from round index
    [r]: sample the clients and resolve their datasets, call [next],
    record the metrics, replace the state, and validate when it is due.
    An error ends the run. *)
Fixpoint rounds {P St T Elt A KModel Metrics : Type}
    `{!tff.IterativeProcess P St T Elt} `{!training_utils.RandomState}
    `{!training_utils.Keras A St Elt KModel Metrics}
    (env : Run) (args : RunArgs P Elt A) (n round_num : nat) (state : St)
    : list (event St T Elt Metrics) * result St :=
  match n with
  | O => ([], Ok state)
  | S n' =>
      match training_utils.client_datasets (client_datasets_fn args)
              (entropy env round_num) round_num with
      | Raise e => ([], Raise e)
      | Ok datasets =>
          let '(state', metrics) :=
            tff.next (iterative_process args) state datasets in
          let validation :=
            if eval_due env round_num
            then [Validation round_num
                    (training_utils.evaluate (validation_fn args) state')]
            else [] in
          let '(trace, res) := rounds env args n' (S round_num) state' in
          ([ClientDatasets round_num datasets;
            Next round_num state datasets;
            Commit round_num state' metrics] ++ validation ++ trace, res)
      end
  end.

(** Modelled from the spec: [training_loop.run]: [initialize] once, the
    rounds [0 .. total_rounds - 1], then the test evaluation of the final
    state. *)
Definition run {P St T Elt A KModel Metrics : Type}
    `{!tff.IterativeProcess P St T Elt} `{!training_utils.RandomState}
    `{!training_utils.Keras A St Elt KModel Metrics}
    (env : Run) (args : RunArgs P Elt A)
    : list (event St T Elt Metrics) * result St :=
  let state := tff.initialize (iterative_process args) in
  let '(trace, res) := rounds env args (total_rounds env) 0%nat state in
  match res with
  | Ok final =>
      (Initialize state :: trace
         ++ [Test (training_utils.evaluate (test_fn args) final)], Ok final)
  | Raise e => (Initialize state :: trace, Raise e)
  end.

End training_loop.

(** ** External builders whose results stay symbolic *)

Module stackoverflow_dataset.

(** The result of [get_special_tokens]. *)
Record SpecialTokens : Type := mkSpecialTokens {
  pad : Z;
  oov : list Z;
  bos : Z;
  eos : Z
}.

Inductive Vocab : Type := create_vocab (vocab_size : Z).

(** The arguments of [create_train_dataset_preprocess_fn]. *)
Record TrainPreprocess : Type := create_train_dataset_preprocess_fn {
  vocab : Vocab;
  num_oov_buckets : Z;
  client_batch_size : Z;
  client_epochs_per_round : Z;
  max_seq_len : Z;
  max_training_elements_per_user : Z
}.

End stackoverflow_dataset.

Module optimizer_utils.

Inductive optimizer_fn : Type := create_optimizer_fn_from_flags (prefix : string).
Inductive lr_schedule : Type := create_lr_schedule_from_flags (prefix : string).

End optimizer_utils.

(** The input spec of a TFF model: the element spec of a dataset, or the
    element type of the result of a preprocessing computation. *)
Inductive InputSpec (Elt : Type) : Type :=
  | element_spec (ds : list Elt)
  | type_signature_result_element (comp : stackoverflow_dataset.TrainPreprocess).
Arguments element_spec {Elt}.
Arguments type_signature_result_element {Elt}.

(** A [client_weight_fn]: from the locally reported outputs to a weight. *)
Definition ClientWeightFn : Type := gmap string tf.Tensor -> result tf.Tensor.

(** An [iterative_process_builder]: a [model_fn], and optionally a
    [client_weight_fn] and a [dataset_preprocess_comp]; [None] stands for
    an argument the caller leaves out. *)
Definition ProcessBuilder (P Elt : Type) : Type :=
  tff.Model (InputSpec Elt) -> option ClientWeightFn ->
  option stackoverflow_dataset.TrainPreprocess -> P.

(** ** [federated_emnist]: the EMNIST character recognition driver *)

Module federated_emnist.

Definition EMNIST_MODELS : list string := ["cnn"; "2nn"].

(** [emnist_dataset.get_emnist_datasets(client_batch_size,
    client_epochs_per_round, only_digits)]: the federated training data
    and the held-out test dataset. *)
Class Datasets (Elt : Type) : Type := {
  get_emnist_datasets : Z -> Z -> bool -> tff.ClientData Elt * list Elt
}.

(** [run_federated] up to the call of [training_loop.run]: the keyword
    arguments of that call, or the exception raised before it. *)
Definition training_loop_args {P Elt A : Type} `{!Datasets Elt}
    (iterative_process_builder : ProcessBuilder P Elt) (assign_weights_fn : A)
    (client_epochs_per_round client_batch_size clients_per_round : Z)
    (client_datasets_random_seed : option Z) (emnist_model : option string)
    : result (training_loop.RunArgs P Elt A) :=
  let '(emnist_train, emnist_test) :=
    get_emnist_datasets client_batch_size client_epochs_per_round false in
  client0 ← py.index (tff.client_ids emnist_train) 0;
  dataset0 ← match tff.create_tf_dataset_for_client emnist_train client0 with
             | Some ds => Ok ds
             | None => Raise (DataResolutionError client0)
             end;
  let input_spec := element_spec dataset0 in
  model_builder ←
    (if decide (emnist_model = Some "cnn")
     then Ok (keras.create_conv_dropout_model false)
     else if decide (emnist_model = Some "2nn")
     then Ok (keras.create_two_hidden_layer_model false)
     else Raise (ValueError
            ("Cannot handle model flag [" +:+ py.str_optional emnist_model
             +:+ "], must be one of " +:+ py.str_list EMNIST_MODELS +:+ ".")));
  let loss_builder := keras.SparseCategoricalCrossentropy false in
  let metrics_builder := [keras.SparseCategoricalAccuracy] in
  let tff_model_fn :=
    tff.from_keras_model model_builder input_spec loss_builder metrics_builder in
  let training_process := iterative_process_builder tff_model_fn None None in
  client_datasets_fn ←
    training_utils.build_client_datasets_fn emnist_train clients_per_round
      client_datasets_random_seed;
  let evaluate_fn :=
    training_utils.build_evaluate_fn emnist_test model_builder loss_builder
      metrics_builder assign_weights_fn in
  Ok (training_loop.mkRunArgs training_process client_datasets_fn
        evaluate_fn evaluate_fn).

Definition run_federated {P St T Elt A KModel Metrics : Type}
    `{!Datasets Elt} `{!tff.IterativeProcess P St T Elt}
    `{!training_utils.RandomState}
    `{!training_utils.Keras A St Elt KModel Metrics}
    (env : training_loop.Run)
    (iterative_process_builder : ProcessBuilder P Elt) (assign_weights_fn : A)
    (client_epochs_per_round client_batch_size clients_per_round : Z)
    (client_datasets_random_seed : option Z) (emnist_model : option string)
    : list (training_loop.event St T Elt Metrics) * result St :=
  match training_loop_args iterative_process_builder assign_weights_fn
          client_epochs_per_round client_batch_size clients_per_round
          client_datasets_random_seed emnist_model with
  | Ok args => training_loop.run env args
  | Raise e => ([], Raise e)
  end.

End federated_emnist.

(** ** [federated_stackoverflow]: the next-word prediction driver *)

Module federated_stackoverflow.

(** [stackoverflow_dataset.get_special_tokens(vocab_size, num_oov_buckets)],
    [tff.simulation.datasets.stackoverflow.load_data()] and the function
    [create_test_dataset_preprocess_fn(vocab, num_oov_buckets, max_seq_len)]
    returns. *)
Class Datasets (Elt : Type) : Type := {
  get_special_tokens : Z -> Z -> stackoverflow_dataset.SpecialTokens;
  load_data : tff.ClientData Elt * tff.ClientData Elt * tff.ClientData Elt;
  create_test_dataset_preprocess_fn :
    stackoverflow_dataset.Vocab -> Z -> Z -> list Elt -> list Elt
}.

Definition metrics_builder (special_tokens : stackoverflow_dataset.SpecialTokens)
    : list keras.metric :=
  let pad_token := stackoverflow_dataset.pad special_tokens in
  let oov_tokens := stackoverflow_dataset.oov special_tokens in
  let eos_token := stackoverflow_dataset.eos special_tokens in
  [ keras.MaskedCategoricalAccuracy "accuracy_with_oov" [pad_token];
    keras.MaskedCategoricalAccuracy "accuracy_no_oov" ([pad_token] ++ oov_tokens);
    keras.MaskedCategoricalAccuracy "accuracy_no_oov_or_eos"
      ([pad_token; eos_token] ++ oov_tokens);
    keras.NumBatchesCounter;
    keras.NumTokensCounter [pad_token] ].

Definition client_weight_fn : ClientWeightFn := fun local_outputs =>
  match local_outputs !! "num_tokens" with
  | Some num_tokens => Ok (tf.cast (tf.squeeze num_tokens) tf.float32)
  | None => Raise (KeyError "num_tokens")
  end.

(** The split of the held-out data into [(validation_set, test_set)]; the
    test set is built first. *)
Definition evaluation_split {Elt : Type} `{!Datasets Elt}
    (vocab_size num_oov_buckets sequence_length num_validation_examples : Z)
    : result (list Elt * list Elt) :=
  let dataset_vocab := stackoverflow_dataset.create_vocab vocab_size in
  let '(_, _, test_clientdata) := load_data in
  let base_test_dataset := tff.create_tf_dataset_from_all_clients test_clientdata in
  let preprocess_val_and_test :=
    create_test_dataset_preprocess_fn dataset_vocab num_oov_buckets sequence_length in
  skipped ← tf_data.skip num_validation_examples base_test_dataset;
  let test_set := preprocess_val_and_test skipped in
  taken ← tf_data.take num_validation_examples base_test_dataset;
  let validation_set := preprocess_val_and_test taken in
  Ok (validation_set, test_set).

(** [run_federated] up to the call of [training_loop.run]. *)
Definition training_loop_args {P Elt A : Type} `{!Datasets Elt}
    (iterative_process_builder : ProcessBuilder P Elt) (assign_weights_fn : A)
    (client_epochs_per_round client_batch_size clients_per_round : Z)
    (client_datasets_random_seed : option Z)
    (vocab_size num_oov_buckets sequence_length max_elements_per_user
     num_validation_examples embedding_size latent_size num_layers : Z)
    (shared_embedding : bool)
    : result (training_loop.RunArgs P Elt A) :=
  let model_builder :=
    keras.create_recurrent_model vocab_size num_oov_buckets embedding_size
      latent_size num_layers shared_embedding in
  let loss_builder := keras.SparseCategoricalCrossentropy true in
  let special_tokens := get_special_tokens vocab_size num_oov_buckets in
  let '(train_clientdata, _, _) := load_data in
  split ← evaluation_split vocab_size num_oov_buckets sequence_length
             num_validation_examples;
  let '(validation_set, test_set) := split in
  let train_dataset_preprocess_comp :=
    stackoverflow_dataset.create_train_dataset_preprocess_fn
      (stackoverflow_dataset.create_vocab vocab_size) num_oov_buckets
      client_batch_size client_epochs_per_round sequence_length
      max_elements_per_user in
  let input_spec := type_signature_result_element train_dataset_preprocess_comp in
  let tff_model_fn :=
    tff.from_keras_model model_builder input_spec loss_builder
      (metrics_builder special_tokens) in
  let training_process :=
    iterative_process_builder tff_model_fn (Some client_weight_fn)
      (Some train_dataset_preprocess_comp) in
  client_datasets_fn ←
    training_utils.build_client_datasets_fn train_clientdata clients_per_round
      client_datasets_random_seed;
  let evaluate_fn :=
    training_utils.build_evaluate_fn validation_set model_builder loss_builder
      (metrics_builder special_tokens) assign_weights_fn in
  let test_fn :=
    training_utils.build_evaluate_fn
      (tf_data.concatenate validation_set test_set) model_builder loss_builder
      (metrics_builder special_tokens) assign_weights_fn in
  Ok (training_loop.mkRunArgs training_process client_datasets_fn
        evaluate_fn test_fn).

Definition run_federated {P St T Elt A KModel Metrics : Type}
    `{!Datasets Elt} `{!tff.IterativeProcess P St T Elt}
    `{!training_utils.RandomState}
    `{!training_utils.Keras A St Elt KModel Metrics}
    (env : training_loop.Run)
    (iterative_process_builder : ProcessBuilder P Elt) (assign_weights_fn : A)
    (client_epochs_per_round client_batch_size clients_per_round : Z)
    (client_datasets_random_seed : option Z)
    (vocab_size num_oov_buckets sequence_length max_elements_per_user
     num_validation_examples embedding_size latent_size num_layers : Z)
    (shared_embedding : bool)
    : list (training_loop.event St T Elt Metrics) * result St :=
  match training_loop_args iterative_process_builder assign_weights_fn
          client_epochs_per_round client_batch_size clients_per_round
          client_datasets_random_seed vocab_size num_oov_buckets
          sequence_length max_elements_per_user num_validation_examples
          embedding_size latent_size num_layers shared_embedding with
  | Ok args => training_loop.run env args
  | Raise e => ([], Raise e)
  end.

End federated_stackoverflow.

(** ** [federated_trainer]: the command-line entry point *)

Module federated_trainer.

Definition _SUPPORTED_TASKS : list string :=
  ["cifar100"; "emnist_cr"; "emnist_ae"; "shakespeare"; "stackoverflow_nwp";
   "stackoverflow_lr"].

(** The flags [main] reads.  [task] has no default. *)
Record Flags : Type := mkFlags {
  task : option string;
  client_epochs_per_round : Z;
  client_batch_size : Z;
  clients_per_round : Z;
  client_datasets_random_seed : Z;
  cifar100_crop_size : Z;
  emnist_cr_model : string;
  shakespeare_sequence_length : Z;
  so_nwp_vocab_size : Z;
  so_nwp_num_oov_buckets : Z;
  so_nwp_sequence_length : Z;
  so_nwp_max_elements_per_user : Z;
  so_nwp_num_validation_examples : Z;
  so_nwp_embedding_size : Z;
  so_nwp_latent_size : Z;
  so_nwp_num_layers : Z;
  so_nwp_shared_embedding : bool;
  so_lr_vocab_tokens_size : Z;
  so_lr_vocab_tags_size : Z;
  so_lr_num_validation_examples : Z;
  so_lr_max_elements_per_user : Z
}.

(** The flag defaults of the module. *)
Definition default_flags (task : option string) : Flags :=
  {| task := task;
     client_epochs_per_round := 1;
     client_batch_size := 20;
     clients_per_round := 10;
     client_datasets_random_seed := 1;
     cifar100_crop_size := 24;
     emnist_cr_model := "cnn";
     shakespeare_sequence_length := 80;
     so_nwp_vocab_size := 10000;
     so_nwp_num_oov_buckets := 1;
     so_nwp_sequence_length := 20;
     so_nwp_max_elements_per_user := 1000;
     so_nwp_num_validation_examples := 10000;
     so_nwp_embedding_size := 96;
     so_nwp_latent_size := 670;
     so_nwp_num_layers := 1;
     so_nwp_shared_embedding := false;
     so_lr_vocab_tokens_size := 10000;
     so_lr_vocab_tags_size := 500;
     so_lr_num_validation_examples := 10000;
     so_lr_max_elements_per_user := 1000 |}.

(** The iterative process [main] builds. *)
Definition Process (Elt : Type) : Type :=
  fed_avg_schedule.FedAvgProcess (InputSpec Elt) optimizer_utils.optimizer_fn
    optimizer_utils.lr_schedule stackoverflow_dataset.TrainPreprocess.

(** The [iterative_process_builder] of [main], with the optimizers and
    learning-rate schedules [main] creates from the flags. *)
Definition iterative_process_builder {Elt : Type}
    : ProcessBuilder (Process Elt) Elt :=
  fun model_fn client_weight_fn dataset_preprocess_comp =>
    let client_optimizer_fn := optimizer_utils.create_optimizer_fn_from_flags "client" in
    let server_optimizer_fn := optimizer_utils.create_optimizer_fn_from_flags "server" in
    let client_lr_schedule := optimizer_utils.create_lr_schedule_from_flags "client" in
    let server_lr_schedule := optimizer_utils.create_lr_schedule_from_flags "server" in
    fed_avg_schedule.build_fed_avg_process model_fn client_optimizer_fn
      client_lr_schedule server_optimizer_fn server_lr_schedule
      client_weight_fn dataset_preprocess_comp.

Definition assign_weights_fn : fed_avg_schedule.assign_weights_fn :=
  fed_avg_schedule.ServerState_assign_weights_to_keras_model.

(** What a run of a driver leaves: the steps of the round loop and the
    final server state or the exception. *)
Definition Outcome (St T Elt Metrics : Type) : Type :=
  list (training_loop.event St T Elt Metrics) * result St.

(** A driver called with [**common_args]. *)
Definition Driver (Elt X : Type) : Type :=
  ProcessBuilder (Process Elt) Elt -> fed_avg_schedule.assign_weights_fn ->
  Z -> Z -> Z -> option Z -> X.

(** The drivers of the tasks whose modules are not among the sources, with
    their task-specific keyword arguments: [crop_size]; none;
    [sequence_length]; and [vocab_tokens_size], [vocab_tags_size],
    [num_validation_examples], [max_elements_per_user]. *)
Class OtherDrivers (St T Elt Metrics : Type) : Type := {
  federated_cifar100_run_federated :
    Driver Elt (Z -> Outcome St T Elt Metrics);
  federated_emnist_ae_run_federated :
    Driver Elt (Outcome St T Elt Metrics);
  federated_shakespeare_run_federated :
    Driver Elt (Z -> Outcome St T Elt Metrics);
  federated_stackoverflow_lr_run_federated :
    Driver Elt (Z -> Z -> Z -> Z -> Outcome St T Elt Metrics)
}.

Definition main {St T Elt KModel Metrics : Type}
    `{!federated_emnist.Datasets Elt} `{!federated_stackoverflow.Datasets Elt}
    `{!tff.IterativeProcess (Process Elt) St T Elt}
    `{!training_utils.RandomState}
    `{!training_utils.Keras fed_avg_schedule.assign_weights_fn St Elt KModel Metrics}
    `{!OtherDrivers St T Elt Metrics}
    (FLAGS : Flags) (env : training_loop.Run) (argv : list string)
    : Outcome St T Elt Metrics :=
  if decide (1 < length argv)%nat
  then ([], Raise (UsageError
          ("Expected no command-line arguments, got: " +:+ py.str_list argv)))
  else
    let common_args {X : Type} (driver : Driver Elt X) : X :=
      driver iterative_process_builder assign_weights_fn
        (client_epochs_per_round FLAGS) (client_batch_size FLAGS)
        (clients_per_round FLAGS) (Some (client_datasets_random_seed FLAGS)) in
    if decide (task FLAGS = Some "cifar100")
    then common_args federated_cifar100_run_federated (cifar100_crop_size FLAGS)
    else if decide (task FLAGS = Some "emnist_cr")
    then common_args (federated_emnist.run_federated env)
           (Some (emnist_cr_model FLAGS))
    else if decide (task FLAGS = Some "emnist_ae")
    then common_args federated_emnist_ae_run_federated
    else if decide (task FLAGS = Some "shakespeare")
    then common_args federated_shakespeare_run_federated
           (shakespeare_sequence_length FLAGS)
    else if decide (task FLAGS = Some "stackoverflow_nwp")
    then common_args (federated_stackoverflow.run_federated env)
           (so_nwp_vocab_size FLAGS) (so_nwp_num_oov_buckets FLAGS)
           (so_nwp_sequence_length FLAGS) (so_nwp_max_elements_per_user FLAGS)
           (so_nwp_num_validation_examples FLAGS) (so_nwp_embedding_size FLAGS)
           (so_nwp_latent_size FLAGS) (so_nwp_num_layers FLAGS)
           (so_nwp_shared_embedding FLAGS)
    else if decide (task FLAGS = Some "stackoverflow_lr")
    then common_args federated_stackoverflow_lr_run_federated
           (so_lr_vocab_tokens_size FLAGS) (so_lr_vocab_tags_size FLAGS)
           (so_lr_num_validation_examples FLAGS)
           (so_lr_max_elements_per_user FLAGS)
    else ([], Raise (ValueError
            ("--task flag " +:+ py.str_optional (task FLAGS)
             +:+ " is not supported, must be one of "
             +:+ py.str_list _SUPPORTED_TASKS +:+ "."))).

(** The value of a flag: of [DEFINE_integer], [DEFINE_boolean] and
    [DEFINE_enum]. *)
Inductive flag_value : Type :=
  | IntegerFlag (value : Z)
  | BooleanFlag (value : bool)
  | EnumFlag (value : option string).

(** The flags the module defines, as the dict from flag name to value that
    [FLAGS] is for them. *)
Definition flag_values (FLAGS : Flags) : gmap string flag_value :=
  list_to_map
    [ ("task", EnumFlag (task FLAGS));
      ("client_epochs_per_round", IntegerFlag (client_epochs_per_round FLAGS));
      ("client_batch_size", IntegerFlag (client_batch_size FLAGS));
      ("clients_per_round", IntegerFlag (clients_per_round FLAGS));
      ("client_datasets_random_seed", IntegerFlag (client_datasets_random_seed FLAGS));
      ("cifar100_crop_size", IntegerFlag (cifar100_crop_size FLAGS));
      ("emnist_cr_model", EnumFlag (Some (emnist_cr_model FLAGS)));
      ("shakespeare_sequence_length", IntegerFlag (shakespeare_sequence_length FLAGS));
      ("so_nwp_vocab_size", IntegerFlag (so_nwp_vocab_size FLAGS));
      ("so_nwp_num_oov_buckets", IntegerFlag (so_nwp_num_oov_buckets FLAGS));
      ("so_nwp_sequence_length", IntegerFlag (so_nwp_sequence_length FLAGS));
      ("so_nwp_max_elements_per_user", IntegerFlag (so_nwp_max_elements_per_user FLAGS));
      ("so_nwp_num_validation_examples",
         IntegerFlag (so_nwp_num_validation_examples FLAGS));
      ("so_nwp_embedding_size", IntegerFlag (so_nwp_embedding_size FLAGS));
      ("so_nwp_latent_size", IntegerFlag (so_nwp_latent_size FLAGS));
      ("so_nwp_num_layers", IntegerFlag (so_nwp_num_layers FLAGS));
      ("so_nwp_shared_embedding", BooleanFlag (so_nwp_shared_embedding FLAGS));
      ("so_lr_vocab_tokens_size", IntegerFlag (so_lr_vocab_tokens_size FLAGS));
      ("so_lr_vocab_tags_size", IntegerFlag (so_lr_vocab_tags_size FLAGS));
      ("so_lr_num_validation_examples",
         IntegerFlag (so_lr_num_validation_examples FLAGS));
      ("so_lr_max_elements_per_user", IntegerFlag (so_lr_max_elements_per_user FLAGS)) ].

(** The loop of [main] that collects the keyword arguments of a driver:
    [for flag_name in FLAGS: if flag_name.startswith(prefix):
    flags[flag_name[n:]] = FLAGS[flag_name].value], over all the flags
    that are defined, those of other modules included. *)
Definition flags_with_prefix (prefix : string) (n : nat)
    (all_flags : gmap string flag_value) : gmap string flag_value :=
  map_fold
    (fun flag_name value flags =>
       if py.startswith prefix flag_name
       then <[py.slice_from n flag_name := value]> flags
       else flags)
    ∅ all_flags.

Definition so_nwp_flags (all_flags : gmap string flag_value)
    : gmap string flag_value :=
  flags_with_prefix "so_nwp_" 7 all_flags.

Definition so_lr_flags (all_flags : gmap string flag_value)
    : gmap string flag_value :=
  flags_with_prefix "so_lr_" 6 all_flags.

End federated_trainer.

(** ** Observations on metric sets and on traces *)

(** The masked-accuracy metrics of a metric set, each with its name and
    its exclusion set. *)
Definition masked_accuracies (metrics : list keras.metric)
    : list (string * list Z) :=
  omap (fun m => match m with
                 | keras.MaskedCategoricalAccuracy name masked => Some (name, masked)
                 | _ => None
                 end) metrics.

(** The calls of [initialize] and of [next] in a trace, in order. *)
Definition initialize_calls {St T Elt Metrics : Type}
    (trace : list (training_loop.event St T Elt Metrics)) : list St :=
  omap (fun e => match e with
                 | training_loop.Initialize s => Some s
                 | _ => None
                 end) trace.

Definition next_calls {St T Elt Metrics : Type}
    (trace : list (training_loop.event St T Elt Metrics))
    : list (nat * St * list (list Elt)) :=
  omap (fun e => match e with
                 | training_loop.Next r s ds => Some (r, s, ds)
                 | _ => None
                 end) trace.

(** [e1] happens before [e2] in a trace. *)
Definition before {E : Type} (e1 e2 : E) (trace : list E) : Prop :=
  exists l1 l2 l3 : list E, trace = l1 ++ e1 :: l2 ++ e2 :: l3.

(** The datasets of [k] distinct clients of the training data, in some
    order. *)
Definition datasets_of_distinct_clients {Elt : Type} (data : tff.ClientData Elt)
    (k : Z) (datasets : list (list Elt)) : Prop :=
  exists ids : list string,
    NoDup ids ∧ Z.of_nat (length ids) = k ∧ ids ⊆ tff.client_ids data
    ∧ training_utils.resolve data ids = Ok datasets
    ∧ length datasets = length ids.

(** A completed run of [total_rounds] rounds: [initialize] is called exactly
    once, as the first step; [next] is called exactly [total_rounds]
    times, for the round indices [0 .. total_rounds - 1] in that order,
    each time on the datasets of exactly [clients_per_round] distinct
    clients of the training data; the first call trains the initial
    state; the state [next] returns is committed after the call; and the
    sampling and the training of round [r + 1] come after the commit of
    round [r], whose state round [r + 1] trains. *)
Definition trains_every_round {P St T Elt A Metrics : Type}
    `{!tff.IterativeProcess P St T Elt} (total_rounds : nat)
    (args : training_loop.RunArgs P Elt A)
    (outcome : list (training_loop.event St T Elt Metrics) * result St) : Prop :=
  let data := training_utils.train_dataset (training_loop.client_datasets_fn args) in
  let k :=
    training_utils.train_clients_per_round (training_loop.client_datasets_fn args) in
  exists trace final,
    outcome = (trace, Ok final)
    ∧ (exists tail,
         trace = training_loop.Initialize
                   (tff.initialize (training_loop.iterative_process args)) :: tail)
    ∧ initialize_calls trace
      = [tff.initialize (training_loop.iterative_process args)]
    ∧ length (next_calls trace) = total_rounds
    ∧ (fun c => c.1.1) <$> next_calls trace = seq 0 total_rounds
    ∧ (forall c, c ∈ next_calls trace ->
         datasets_of_distinct_clients data k c.2 ∧ Z.of_nat (length c.2) = k)
    ∧ (forall s ds, training_loop.Next 0 s ds ∈ trace ->
         s = tff.initialize (training_loop.iterative_process args))
    ∧ (forall q s ds, training_loop.Next q s ds ∈ trace ->
         let returned := tff.next (training_loop.iterative_process args) s ds in
         before (training_loop.Next q s ds)
           (training_loop.Commit q returned.1 returned.2) trace)
    ∧ (forall r ds, training_loop.ClientDatasets (S r) ds ∈ trace ->
         exists s m,
           before (training_loop.Commit r s m)
             (training_loop.ClientDatasets (S r) ds) trace)
    ∧ (forall r s ds, training_loop.Next (S r) s ds ∈ trace ->
         exists m,
           before (training_loop.Commit r s m)
             (training_loop.Next (S r) s ds) trace).

(** ** A small experiment

    Five clients, two of them sampled in each of three rounds under a
    fixed seed; a held-out dataset of two examples.  The external
    collaborators are as simple as their interfaces allow. *)

Module scenario.

(** A linear congruential generator. *)
Definition lcg : training_utils.RandomState :=
  {| training_utils.seeded := fun s r => (16807 * s + Z.of_nat r) `mod` 2147483647;
     training_utils.random_int := fun g => g `div` 7;
     training_utils.advance := fun g => (1103515245 * g + 12345) `mod` 2147483648 |}.

Definition ids : list string := ["c0"; "c1"; "c2"; "c3"; "c4"].

(** The examples of the five clients. *)
Definition examples : gmap string (list Z) :=
  list_to_map [("c0", [0]); ("c1", [1]); ("c2", [2]); ("c3", [3]); ("c4", [4])].

Definition train : tff.ClientData Z :=
  tff.mkClientData ids (fun id => examples !! id) [0; 1; 2; 3; 4].

(** The same clients when the provider has lost the examples of [c1]. *)
Definition partial_train : tff.ClientData Z :=
  tff.mkClientData ids (fun id => delete "c1" examples !! id) [0; 2; 3; 4].

Definition held_out : list Z := [10; 11].

Definition emnist : federated_emnist.Datasets Z :=
  {| federated_emnist.get_emnist_datasets := fun _ _ _ => (train, held_out) |}.

Definition partial_emnist : federated_emnist.Datasets Z :=
  {| federated_emnist.get_emnist_datasets := fun _ _ _ => (partial_train, held_out) |}.

Definition special_tokens : stackoverflow_dataset.SpecialTokens :=
  stackoverflow_dataset.mkSpecialTokens 0 [10001] 10002 10003.

Definition stackoverflow : federated_stackoverflow.Datasets Z :=
  {| federated_stackoverflow.get_special_tokens := fun _ _ => special_tokens;
     federated_stackoverflow.load_data :=
       (train, train, tff.mkClientData ids (fun _ => None) held_out);
     federated_stackoverflow.create_test_dataset_preprocess_fn :=
       fun _ _ _ ds => ds |}.

(** A process whose state counts the client datasets it has seen. *)
Definition process : tff.IterativeProcess (federated_trainer.Process Z) Z nat Z :=
  {| tff.initialize := fun _ => 0;
     tff.next := fun _ state datasets =>
       (state + Z.of_nat (length datasets), length datasets) |}.

(** An evaluation that reports the state and the examples it has seen. *)
Definition keras_ops
    : training_utils.Keras fed_avg_schedule.assign_weights_fn Z Z Z (list Z) :=
  {| training_utils.build := fun _ => 0;
     training_utils.assign := fun _ state _ => state;
     training_utils.keras_evaluate := fun model _ _ ds => model :: ds |}.

Definition other_drivers : federated_trainer.OtherDrivers Z nat Z (list Z) :=
  {| federated_trainer.federated_cifar100_run_federated :=
       fun _ _ _ _ _ _ _ => ([], Ok 0);
     federated_trainer.federated_emnist_ae_run_federated :=
       fun _ _ _ _ _ _ => ([], Ok 0);
     federated_trainer.federated_shakespeare_run_federated :=
       fun _ _ _ _ _ _ _ => ([], Ok 0);
     federated_trainer.federated_stackoverflow_lr_run_federated :=
       fun _ _ _ _ _ _ _ _ _ _ => ([], Ok 0) |}.

(** Three rounds, validation after every round, no entropy. *)
Definition env : training_loop.Run :=
  training_loop.mkRun 3 (fun _ => true) (fun _ => 0).

(** The flags of the scenario: the defaults, with two clients per round. *)
Definition flags (task : option string) (emnist_cr_model : string)
    : federated_trainer.Flags :=
  federated_trainer.mkFlags task 1 20 2 1 24 emnist_cr_model 80
    10000 1 20 1000 1 96 670 1 false 10000 500 10000 1000.

End scenario.

(** * Part II: theorems *)

(** ** The evaluation split of the Stack Overflow driver *)

Section tf_data_facts.
Context {A : Type}.
Implicit Types (count : Z) (ds : list A).

Lemma is_int64_spec count :
  tf_data.is_int64 count = true ↔ - 2 ^ 63 ≤ count < 2 ^ 63.
Proof.
  unfold tf_data.is_int64. rewrite andb_true_iff, Z.leb_le, Z.ltb_lt. tauto.
Qed.

Lemma take_prefix count ds :
  tf_data.is_int64 count = true ->
  tf_data.take count ds = Ok (list.take (tf_data.kept count ds) ds).
Proof.
  intros Hcount. unfold tf_data.take, tf_data.kept. rewrite Hcount. f_equal.
  destruct (count <? 0).
  - by rewrite firstn_all.
  - destruct (decide (Z.to_nat count ≤ length ds)%nat).
    + by rewrite Nat.min_l.
    + rewrite Nat.min_r by lia. rewrite firstn_all. apply take_ge. lia.
Qed.

Lemma skip_suffix count ds :
  tf_data.is_int64 count = true ->
  tf_data.skip count ds = Ok (list.drop (tf_data.kept count ds) ds).
Proof.
  intros Hcount. unfold tf_data.skip, tf_data.kept. rewrite Hcount. f_equal.
  destruct (count <? 0).
  - by rewrite drop_all.
  - destruct (decide (Z.to_nat count ≤ length ds)%nat).
    + by rewrite Nat.min_l.
    + rewrite Nat.min_r by lia. rewrite drop_all. apply drop_ge. lia.
Qed.

Lemma take_out_of_range count ds :
  tf_data.is_int64 count = false -> tf_data.take count ds = Raise tf_data.count_error.
Proof. intros Hcount. unfold tf_data.take. by rewrite Hcount. Qed.

Lemma skip_out_of_range count ds :
  tf_data.is_int64 count = false -> tf_data.skip count ds = Raise tf_data.count_error.
Proof. intros Hcount. unfold tf_data.skip. by rewrite Hcount. Qed.

Lemma kept_le count ds : (tf_data.kept count ds ≤ length ds)%nat.
Proof. unfold tf_data.kept. destruct (count <? 0); lia. Qed.

Lemma kept_in_range count ds :
  0 ≤ count ≤ Z.of_nat (length ds) -> Z.of_nat (tf_data.kept count ds) = count.
Proof.
  intros [H0 Hn]. unfold tf_data.kept.
  destruct (Z.ltb_spec count 0); lia.
Qed.

End tf_data_facts.

Section evaluation_split.
Context {Elt : Type} `{!federated_stackoverflow.Datasets Elt}.

(** The held-out dataset of the driver and its preprocessing. *)
Let base_test_dataset : list Elt :=
  tff.create_tf_dataset_from_all_clients federated_stackoverflow.load_data.2.
Let preprocess (vocab_size num_oov_buckets sequence_length : Z) :=
  federated_stackoverflow.create_test_dataset_preprocess_fn
    (stackoverflow_dataset.create_vocab vocab_size) num_oov_buckets sequence_length.

Lemma evaluation_split_unfold vocab_size num_oov_buckets sequence_length K :
  federated_stackoverflow.evaluation_split vocab_size num_oov_buckets
    sequence_length K
  = (skipped ← tf_data.skip K base_test_dataset;
     taken ← tf_data.take K base_test_dataset;
     Ok (preprocess vocab_size num_oov_buckets sequence_length taken,
         preprocess vocab_size num_oov_buckets sequence_length skipped)).
Proof.
  unfold federated_stackoverflow.evaluation_split, base_test_dataset, preprocess.
  destruct federated_stackoverflow.load_data as [[d1 d2] d3]. reflexivity.
Qed.

Lemma evaluation_split_in_range vocab_size num_oov_buckets sequence_length K :
  tf_data.is_int64 K = true ->
  federated_stackoverflow.evaluation_split vocab_size num_oov_buckets
    sequence_length K
  = Ok (preprocess vocab_size num_oov_buckets sequence_length
          (list.take (tf_data.kept K base_test_dataset) base_test_dataset),
        preprocess vocab_size num_oov_buckets sequence_length
          (list.drop (tf_data.kept K base_test_dataset) base_test_dataset)).
Proof.
  intros HK. rewrite evaluation_split_unfold.
  by rewrite (skip_suffix K _ HK), (take_prefix K _ HK).
Qed.

Lemma evaluation_split_out_of_range vocab_size num_oov_buckets sequence_length K :
  tf_data.is_int64 K = false ->
  federated_stackoverflow.evaluation_split vocab_size num_oov_buckets
    sequence_length K
  = Raise tf_data.count_error.
Proof.
  intros HK. rewrite evaluation_split_unfold.
  by rewrite (skip_out_of_range K _ HK).
Qed.

(** C4, as amended.  For a held-out dataset of size [N] and a cutoff [K]
    that converts to [int64], the validation set is the preprocessing of
    the first [min K N] examples of the held-out dataset (of all of them
    when [K] is negative) and the test set the preprocessing of the
    remaining [N - min K N] ones: a prefix and the matching suffix.  An
    example of the one and an example of the other come from different
    positions of the held-out dataset, and the concatenation of the two
    is the held-out dataset, in order and hence as a multiset.  For a
    cutoff that does not convert to [int64] no split is built: the set-up
    fails with a [ValueError]. *)
Theorem evaluation_split_partition vocab_size num_oov_buckets sequence_length K :
  let m := tf_data.kept K base_test_dataset in
  let validation := list.take m base_test_dataset in
  let test := list.drop m base_test_dataset in
  ((K < - 2 ^ 63 ∨ 2 ^ 63 ≤ K)
   ∧ exists msg,
       federated_stackoverflow.evaluation_split vocab_size num_oov_buckets
         sequence_length K = Raise (ValueError msg))
  ∨ (- 2 ^ 63 ≤ K < 2 ^ 63
     ∧ federated_stackoverflow.evaluation_split vocab_size num_oov_buckets
         sequence_length K
       = Ok (preprocess vocab_size num_oov_buckets sequence_length validation,
             preprocess vocab_size num_oov_buckets sequence_length test)
     ∧ m = (if K <? 0 then length base_test_dataset
            else Nat.min (Z.to_nat K) (length base_test_dataset))
     ∧ length validation = m
     ∧ length test = (length base_test_dataset - m)%nat
     ∧ (forall (i j : nat) (x y : Elt),
          validation !! i = Some x -> test !! j = Some y ->
          base_test_dataset !! i = Some x
          ∧ base_test_dataset !! (m + j)%nat = Some y
          ∧ i ≠ (m + j)%nat)
     ∧ validation ++ test = base_test_dataset
     ∧ validation ++ test ≡ₚ base_test_dataset).
Proof.
  intros m validation test. subst validation test.
  pose proof (kept_le K base_test_dataset) as Hle. fold m in Hle.
  destruct (tf_data.is_int64 K) eqn:HK.
  - right. pose proof (proj1 (is_int64_spec K) HK) as Hrange.
    split; [exact Hrange|]. split_and!.
    + by apply evaluation_split_in_range.
    + reflexivity.
    + rewrite length_take. lia.
    + apply length_drop.
    + intros i j x y Hx Hy.
      apply lookup_take_Some in Hx as [Hx Hi].
      rewrite lookup_drop in Hy. split_and!; [done | done | lia].
    + apply take_drop.
    + by rewrite take_drop.
  - left. split.
    + assert (Hn : ¬ (- 2 ^ 63 ≤ K < 2 ^ 63)).
      { intros Hr%is_int64_spec. congruence. }
      lia.
    + eexists. by apply evaluation_split_out_of_range.
Qed.

End evaluation_split.

(** C4, as stated, fails for a cutoff beyond the size of the held-out
    dataset: with two held-out examples and a cutoff of three, validation
    has two examples, not three, and test has none, not [2 - 3]. *)
Lemma evaluation_split_cutoff_beyond_size :
  exists validation_set test_set : list Z,
    @federated_stackoverflow.evaluation_split Z scenario.stackoverflow
      10000 1 20 3 = Ok (validation_set, test_set)
    ∧ validation_set = [10; 11] ∧ test_set = []
    ∧ Z.of_nat (length validation_set) ≠ 3
    ∧ Z.of_nat (length test_set) ≠ Z.of_nat (length scenario.held_out) - 3.
Proof.
  eexists _, _. split; [reflexivity|].
  split_and!; [reflexivity | reflexivity | discriminate | discriminate].
Qed.

(** ** The evaluation functions the drivers hand to the round loop *)

Section stackoverflow_evaluation.
Context {P Elt A St KModel Metrics : Type}.
Context `{!federated_stackoverflow.Datasets Elt}.
Context `{!training_utils.Keras A St Elt KModel Metrics}.

(** C5, as amended.  In the Stack Overflow driver the validation function
    the round loop receives evaluates the model, instantiated from the
    server state by [assign_weights_fn], on the validation set alone, and
    the test function evaluates it on the concatenation of the validation
    set and the test set.  (The EMNIST driver has no such split: both of
    its functions evaluate on the entire held-out test dataset.) *)
Theorem stackoverflow_evaluation_targets
    (iterative_process_builder : ProcessBuilder P Elt) (assign_weights_fn : A)
    (client_epochs_per_round client_batch_size clients_per_round : Z)
    (client_datasets_random_seed : option Z)
    (vocab_size num_oov_buckets sequence_length max_elements_per_user
     num_validation_examples embedding_size latent_size num_layers : Z)
    (shared_embedding : bool) (args : training_loop.RunArgs P Elt A) :
  federated_stackoverflow.training_loop_args iterative_process_builder
    assign_weights_fn client_epochs_per_round client_batch_size
    clients_per_round client_datasets_random_seed vocab_size num_oov_buckets
    sequence_length max_elements_per_user num_validation_examples
    embedding_size latent_size num_layers shared_embedding = Ok args ->
  let model_of (state : St) : KModel :=
    training_utils.assign assign_weights_fn state
      (training_utils.build
         (keras.create_recurrent_model vocab_size num_oov_buckets
            embedding_size latent_size num_layers shared_embedding)) in
  let metrics :=
    federated_stackoverflow.metrics_builder
      (federated_stackoverflow.get_special_tokens vocab_size num_oov_buckets) in
  exists split : list Elt * list Elt,
    federated_stackoverflow.evaluation_split vocab_size num_oov_buckets
      sequence_length num_validation_examples = Ok split
    ∧ training_utils.eval_dataset (training_loop.validation_fn args) = split.1
    ∧ training_utils.eval_dataset (training_loop.test_fn args) = split.1 ++ split.2
    ∧ (forall state : St,
         training_utils.evaluate (training_loop.validation_fn args) state
         = training_utils.keras_evaluate (model_of state)
             (keras.SparseCategoricalCrossentropy true) metrics split.1)
    ∧ (forall state : St,
         training_utils.evaluate (training_loop.test_fn args) state
         = training_utils.keras_evaluate (model_of state)
             (keras.SparseCategoricalCrossentropy true) metrics
             (split.1 ++ split.2)).
Proof.
  unfold federated_stackoverflow.training_loop_args.
  destruct federated_stackoverflow.load_data as [[train_clientdata d2] d3] eqn:Hload.
  destruct (federated_stackoverflow.evaluation_split _ _ _ _)
    as [[validation_set test_set]|e0]; simpl; [|discriminate].
  destruct (training_utils.build_client_datasets_fn _ _ _) as [fn|e];
    simpl; [|discriminate].
  intros [= <-]. simpl. by eexists.
Qed.

End stackoverflow_evaluation.

Section emnist_evaluation.
Context {P Elt A : Type}.
Context `{!federated_emnist.Datasets Elt}.

(** C10.  In the EMNIST driver the validation function and the test
    function the round loop receives are one and the same evaluation
    function, built over the entire held-out test dataset: under any Keras
    operations and for every server state the two evaluations are over the
    same examples and give the same metrics. *)
Theorem emnist_validation_is_test
    (iterative_process_builder : ProcessBuilder P Elt) (assign_weights_fn : A)
    (client_epochs_per_round client_batch_size clients_per_round : Z)
    (client_datasets_random_seed : option Z) (emnist_model : option string)
    (args : training_loop.RunArgs P Elt A) :
  federated_emnist.training_loop_args iterative_process_builder
    assign_weights_fn client_epochs_per_round client_batch_size
    clients_per_round client_datasets_random_seed emnist_model = Ok args ->
  let emnist_test :=
    (federated_emnist.get_emnist_datasets client_batch_size
       client_epochs_per_round false).2 in
  training_loop.validation_fn args = training_loop.test_fn args
  ∧ training_utils.eval_dataset (training_loop.validation_fn args) = emnist_test
  ∧ training_utils.eval_dataset (training_loop.test_fn args) = emnist_test
  ∧ (forall (St KModel Metrics : Type)
            (ops : training_utils.Keras A St Elt KModel Metrics) (state : St),
       training_utils.evaluate (training_loop.validation_fn args) state
       = training_utils.evaluate (training_loop.test_fn args) state).
Proof.
  unfold federated_emnist.training_loop_args.
  destruct (federated_emnist.get_emnist_datasets _ _ _) as [emnist_train emnist_test].
  destruct (py.index _ _) as [client0|e0]; simpl; [|discriminate].
  destruct (tff.create_tf_dataset_for_client _ _) as [dataset0|]; simpl; [|discriminate].
  destruct (decide _) as [e1|n1]; [|destruct (decide _) as [e2|n2]];
    simpl; try discriminate.
  all: destruct (training_utils.build_client_datasets_fn _ _ _) as [fn|e'];
    simpl; [|discriminate].
  all: intros [= <-]; simpl; done.
Qed.

End emnist_evaluation.

(** The scenario reaches the round loop of the Stack Overflow driver. *)
Lemma stackoverflow_evaluation_targets_witness :
  exists args,
    @federated_stackoverflow.training_loop_args (federated_trainer.Process Z) Z _
      scenario.stackoverflow federated_trainer.iterative_process_builder
      federated_trainer.assign_weights_fn 1 20 2 (Some 1)
      10000 1 20 1000 1 96 670 1 false = Ok args
    ∧ training_utils.eval_dataset (training_loop.validation_fn args) = [10]
    ∧ training_utils.eval_dataset (training_loop.test_fn args) = [10; 11].
Proof.
  eexists. split; [reflexivity|].
  pose proof (@stackoverflow_evaluation_targets (federated_trainer.Process Z) Z _
    Z Z (list Z) scenario.stackoverflow scenario.keras_ops
    federated_trainer.iterative_process_builder
    federated_trainer.assign_weights_fn 1 20 2 (Some 1)
    10000 1 20 1000 1 96 670 1 false _ eq_refl)
    as (split & Hsplit & Hv & Ht & _).
  injection Hsplit as <-. split; [exact Hv | exact Ht].
Defined.

(** The scenario reaches the round loop of the EMNIST driver. *)
Lemma emnist_validation_is_test_witness :
  exists args,
    @federated_emnist.training_loop_args (federated_trainer.Process Z) Z _
      scenario.emnist federated_trainer.iterative_process_builder
      federated_trainer.assign_weights_fn 1 20 2 (Some 1) (Some "cnn") = Ok args
    ∧ training_loop.validation_fn args = training_loop.test_fn args
    ∧ training_utils.eval_dataset (training_loop.validation_fn args) = [10; 11].
Proof.
  eexists. split; [reflexivity|].
  pose proof (@emnist_validation_is_test (federated_trainer.Process Z) Z _
    scenario.emnist federated_trainer.iterative_process_builder
    federated_trainer.assign_weights_fn 1 20 2 (Some 1) (Some "cnn") _ eq_refl)
    as (Hsame & Hv & _).
  split; [exact Hsame | exact Hv].
Defined.

(** C5, as stated for every driver, fails for the EMNIST driver: its
    validation function evaluates on the whole held-out dataset, which is
    not the first example alone, and no split of the held-out data with a
    non-empty test part has the validation function on the validation part
    alone and the test function on the concatenation. *)
Lemma emnist_validation_not_on_split :
  exists args,
    @federated_emnist.training_loop_args (federated_trainer.Process Z) Z _
      scenario.emnist federated_trainer.iterative_process_builder
      federated_trainer.assign_weights_fn 1 20 2 (Some 1) (Some "cnn") = Ok args
    ∧ Ok (training_utils.eval_dataset (training_loop.validation_fn args))
      ≠ tf_data.take 1 scenario.held_out
    ∧ ¬ exists validation_split test_split : list Z,
          test_split ≠ []
          ∧ training_utils.eval_dataset (training_loop.validation_fn args)
            = validation_split
          ∧ training_utils.eval_dataset (training_loop.test_fn args)
            = validation_split ++ test_split.
Proof.
  eexists. split; [reflexivity|]. simpl. split; [discriminate|].
  intros (v & t & Hne & <- & Ht).
  apply Hne. destruct t as [|x t]; [reflexivity|].
  apply (f_equal length) in Ht. simpl in Ht. lia.
Qed.

(** ** The metric set of the Stack Overflow driver *)



(** ** Client weights *)

Section round_float32.

Lemma round_float32_nonneg_exact (m : Z) :
  0 ≤ m ≤ 2 ^ 24 -> tf.round_float32_nonneg m = m.
Proof.
  intros [H0 H24]. unfold tf.round_float32_nonneg.
  destruct (decide (m = 2 ^ 24)) as [->|Hne]; [reflexivity|].
  destruct (decide (m = 0)) as [->|Hpos]; [reflexivity|].
  assert (Hlog : Z.log2 m < 24) by (apply Z.log2_lt_pow2; lia).
  destruct (Z.ltb_spec (Z.log2 m) 24); [reflexivity | lia].
Qed.

Lemma round_float32_exact (n : Z) :
  - 2 ^ 24 ≤ n ≤ 2 ^ 24 -> tf.round_float32 n = n.
Proof.
  intros Hn. unfold tf.round_float32.
  rewrite round_float32_nonneg_exact by lia.
  destruct (Z.abs_spec n) as [[? ->]|[? ->]]; lia.
Qed.

End round_float32.

Section token_count.
Implicit Types (batches : list keras_metrics.Batch) (pad : Z).

(** The tokens a [NumTokensCounter] that masks [pad] counts over the
    batches are the ground-truth tokens other than [pad]. *)
Lemma num_tokens_total pad batches :
  keras_metrics.total (keras_metrics.num_tokens [pad]) batches
  = Z.of_nat (length (filter (fun y => y ≠ pad)
                        (concat (keras_metrics.y_true <$> batches)))).
Proof.
  induction batches as [|b batches IH]; [reflexivity|].
  cbn [keras_metrics.total foldr fmap list_fmap concat].
  fold (keras_metrics.total (keras_metrics.num_tokens [pad]) batches).
  rewrite IH, filter_app, length_app, Nat2Z.inj_add.
  f_equal. unfold keras_metrics.num_tokens. do 2 f_equal.
  apply list_filter_iff. intros y. by rewrite list_elem_of_singleton.
Qed.

(** C6.  The locally reported outputs of a client of the Stack Overflow
    task carry, as the single-element vector [num_tokens], the number of
    ground-truth tokens other than the padding token that the client
    processed; [client_weight_fn] returns that count squeezed to a scalar
    and cast to [float32] (the cast is exact up to [2 ^ 24]). *)
Theorem client_weight_is_token_count
    (special_tokens : stackoverflow_dataset.SpecialTokens) batches :
  let local_outputs :=
    keras_metrics.report_local_outputs
      (federated_stackoverflow.metrics_builder special_tokens) batches in
  let count :=
    Z.of_nat (length (filter (fun y => y ≠ stackoverflow_dataset.pad special_tokens)
                        (concat (keras_metrics.y_true <$> batches)))) in
  local_outputs !! "num_tokens" = Some (tf.vector1 tf.int64 count)
  ∧ tf.squeeze (tf.vector1 tf.int64 count) = tf.scalar tf.int64 count
  ∧ federated_stackoverflow.client_weight_fn local_outputs
    = Ok (tf.scalar tf.float32 (tf.round_float32 count))
  ∧ (tf.round_float32 count = count ∨ 2 ^ 24 < count).
Proof.
  intros local_outputs count.
  assert (Hlookup : local_outputs !! "num_tokens" = Some (tf.vector1 tf.int64 count)).
  { unfold local_outputs, keras_metrics.report_local_outputs,
      federated_stackoverflow.metrics_builder.
    cbn [foldr keras_metrics.metric_name keras_metrics.metric_value].
    rewrite !lookup_insert_ne by discriminate.
    rewrite lookup_insert_eq. by rewrite num_tokens_total. }
  split_and!.
  - exact Hlookup.
  - reflexivity.
  - unfold federated_stackoverflow.client_weight_fn. by rewrite Hlookup.
  - destruct (decide (count ≤ 2 ^ 24)).
    + left. apply round_float32_exact. lia.
    + right. lia.
Qed.

End token_count.

Section default_weight.
Context {Elt : Type} `{!federated_emnist.Datasets Elt}.

(** A process built without a [client_weight_fn] weighs a client by the
    number of examples it processed. *)
Lemma client_weight_default
    (model_fn : tff.Model (InputSpec Elt))
    (dataset_preprocess_comp : option stackoverflow_dataset.TrainPreprocess)
    (out : fed_avg_schedule.ClientOutput) :
  fed_avg_schedule.client_weight
    (federated_trainer.iterative_process_builder model_fn None
       dataset_preprocess_comp) out
  = Ok (tf.scalar tf.int64 (fed_avg_schedule.num_examples out)).
Proof. reflexivity. Qed.

(** C7.  The EMNIST driver supplies no client weight function to the
    [iterative_process_builder] of [main], and in the process it gets the
    weight of a client in the federated average is the number of examples
    the client processed during the round; so it is for every process
    that [iterative_process_builder] builds without a client weight
    function. *)
Theorem emnist_default_client_weight
    (assign_weights_fn : fed_avg_schedule.assign_weights_fn)
    (client_epochs_per_round client_batch_size clients_per_round : Z)
    (client_datasets_random_seed : option Z) (emnist_model : option string)
    (args : training_loop.RunArgs (federated_trainer.Process Elt) Elt
              fed_avg_schedule.assign_weights_fn) :
  federated_emnist.training_loop_args federated_trainer.iterative_process_builder
    assign_weights_fn client_epochs_per_round client_batch_size
    clients_per_round client_datasets_random_seed emnist_model = Ok args ->
  fed_avg_schedule.client_weight_fn (training_loop.iterative_process args) = None
  ∧ (forall out : fed_avg_schedule.ClientOutput,
       fed_avg_schedule.client_weight (training_loop.iterative_process args) out
       = Ok (tf.scalar tf.int64 (fed_avg_schedule.num_examples out)))
  ∧ (forall (model_fn : tff.Model (InputSpec Elt))
            (dataset_preprocess_comp : option stackoverflow_dataset.TrainPreprocess)
            (out : fed_avg_schedule.ClientOutput),
       fed_avg_schedule.client_weight
         (federated_trainer.iterative_process_builder model_fn None
            dataset_preprocess_comp) out
       = Ok (tf.scalar tf.int64 (fed_avg_schedule.num_examples out))).
Proof.
  unfold federated_emnist.training_loop_args.
  destruct (federated_emnist.get_emnist_datasets _ _ _) as [emnist_train emnist_test].
  destruct (py.index _ _) as [client0|e0]; simpl; [|discriminate].
  destruct (tff.create_tf_dataset_for_client _ _) as [dataset0|]; simpl; [|discriminate].
  destruct (decide _) as [e1|n1]; [|destruct (decide _) as [e2|n2]];
    simpl; try discriminate.
  all: destruct (training_utils.build_client_datasets_fn _ _ _) as [fn|e'];
    simpl; [|discriminate].
  all: intros [= <-]; simpl; split_and!; [reflexivity | reflexivity |].
  all: apply client_weight_default.
Qed.

End default_weight.

(** In the scenario a client that processed seven examples weighs seven. *)
Lemma emnist_default_client_weight_witness :
  exists args,
    @federated_emnist.training_loop_args (federated_trainer.Process Z) Z _
      scenario.emnist federated_trainer.iterative_process_builder
      federated_trainer.assign_weights_fn 1 20 2 (Some 1) (Some "2nn") = Ok args
    ∧ fed_avg_schedule.client_weight (training_loop.iterative_process args)
        (fed_avg_schedule.mkClientOutput ∅ 7)
      = Ok (tf.scalar tf.int64 7).
Proof.
  eexists. split; [reflexivity|].
  pose proof (@emnist_default_client_weight Z scenario.emnist
    federated_trainer.assign_weights_fn 1 20 2 (Some 1) (Some "2nn") _ eq_refl)
    as (_ & Hw & _).
  exact (Hw (fed_avg_schedule.mkClientOutput ∅ 7)).
Defined.

(** ** Invalid task and model names *)

Section strings.
Implicit Types (s t u : string).

Lemma string_app_assoc s t u : (s +:+ t) +:+ u = s +:+ t +:+ u.
Proof.
  induction s as [|c s IH]; [reflexivity|].
  change (String c ((s +:+ t) +:+ u) = String c (s +:+ t +:+ u)).
  by rewrite IH.
Qed.

(** The second and the fourth piece of a message of five pieces. *)
Lemma contains_second s1 s2 s3 : py.contains s2 (s1 +:+ s2 +:+ s3).
Proof. by exists s1, s3. Qed.

Lemma contains_fourth s1 s2 s3 s4 s5 :
  py.contains s4 (s1 +:+ s2 +:+ s3 +:+ s4 +:+ s5).
Proof.
  exists (s1 +:+ s2 +:+ s3), s5. cbv beta.
  by rewrite (string_app_assoc s1), (string_app_assoc s2).
Qed.

End strings.

Section invalid_names.
Context {St T Elt KModel Metrics P A : Type}.
Context `{!federated_emnist.Datasets Elt} `{!federated_stackoverflow.Datasets Elt}.
Context `{!tff.IterativeProcess (federated_trainer.Process Elt) St T Elt}.
Context `{!tff.IterativeProcess P St T Elt}.
Context `{!training_utils.RandomState}.
Context `{!training_utils.Keras fed_avg_schedule.assign_weights_fn St Elt KModel Metrics}.
Context `{!training_utils.Keras A St Elt KModel Metrics}.
Context `{!federated_trainer.OtherDrivers St T Elt Metrics}.

Lemma main_unsupported_task (FLAGS : federated_trainer.Flags)
    (env : training_loop.Run) (argv : list string) :
  (length argv ≤ 1)%nat ->
  federated_trainer.task FLAGS ∉ Some <$> federated_trainer._SUPPORTED_TASKS ->
  federated_trainer.main FLAGS env argv
  = ([], Raise (ValueError
       ("--task flag " +:+ py.str_optional (federated_trainer.task FLAGS)
        +:+ " is not supported, must be one of "
        +:+ py.str_list federated_trainer._SUPPORTED_TASKS +:+ "."))).
Proof.
  intros Hargv Htask. unfold federated_trainer.main.
  destruct (decide (1 < length argv)%nat); [lia|].
  repeat match goal with
  | |- context [decide (federated_trainer.task FLAGS = Some ?name)] =>
      destruct (decide (federated_trainer.task FLAGS = Some name)) as [Heq|_];
      [exfalso; apply Htask; rewrite Heq;
       unfold federated_trainer._SUPPORTED_TASKS; set_solver|]
  end.
  reflexivity.
Qed.

Lemma emnist_unsupported_model
    (iterative_process_builder : ProcessBuilder P Elt) (assign_weights_fn : A)
    (client_epochs_per_round client_batch_size clients_per_round : Z)
    (client_datasets_random_seed : option Z) (emnist_model : option string) :
  emnist_model ∉ Some <$> federated_emnist.EMNIST_MODELS ->
  (exists e,
     federated_emnist.training_loop_args iterative_process_builder
       assign_weights_fn client_epochs_per_round client_batch_size
       clients_per_round client_datasets_random_seed emnist_model = Raise e)
  ∧ ((exists client0 dataset0,
        let emnist_train :=
          (federated_emnist.get_emnist_datasets client_batch_size
             client_epochs_per_round false).1 in
        tff.client_ids emnist_train !! 0%nat = Some client0
        ∧ tff.create_tf_dataset_for_client emnist_train client0 = Some dataset0) ->
     federated_emnist.training_loop_args iterative_process_builder
       assign_weights_fn client_epochs_per_round client_batch_size
       clients_per_round client_datasets_random_seed emnist_model
     = Raise (ValueError
         ("Cannot handle model flag [" +:+ py.str_optional emnist_model
          +:+ "], must be one of "
          +:+ py.str_list federated_emnist.EMNIST_MODELS +:+ "."))).
Proof.
  intros Hmodel. unfold federated_emnist.training_loop_args, py.index.
  destruct (federated_emnist.get_emnist_datasets _ _ _) as [emnist_train emnist_test].
  simpl.
  assert (Hcnn : emnist_model ≠ Some "cnn").
  { intros ->. apply Hmodel. unfold federated_emnist.EMNIST_MODELS. set_solver. }
  assert (H2nn : emnist_model ≠ Some "2nn").
  { intros ->. apply Hmodel. unfold federated_emnist.EMNIST_MODELS. set_solver. }
  split.
  - destruct (tff.client_ids emnist_train !! 0%nat) as [client0|]; simpl; [|eauto].
    destruct (tff.create_tf_dataset_for_client _ _) as [dataset0|]; simpl; [|eauto].
    destruct (decide _) as [|_]; [done|]. destruct (decide _) as [|_]; [done|].
    simpl. eauto.
  - intros (client0 & dataset0 & -> & Hds). simpl. rewrite Hds. simpl.
    destruct (decide _) as [|_]; [done|]. destruct (decide _) as [|_]; [done|].
    reflexivity.
Qed.

(** C9, as amended.  A task name outside [_SUPPORTED_TASKS] makes [main] fail with no
    step of the round loop taken (not even [initialize]); the exception is
    a [ValueError] whose message holds the task name and the list of
    supported tasks, when [main] got no stray command-line argument (which
    is a usage error before the task is looked at).  A model name outside
    [EMNIST_MODELS] makes the EMNIST driver fail with no step of the round
    loop taken; the exception is a [ValueError] whose message holds the
    model name and the list of models, when the first client of the
    training data resolves (the driver reads its element spec before it
    looks at the model name). *)
Theorem invalid_names_are_fatal :
  (forall (FLAGS : federated_trainer.Flags) (env : training_loop.Run)
          (argv : list string),
     federated_trainer.task FLAGS ∉ Some <$> federated_trainer._SUPPORTED_TASKS ->
     exists e,
       federated_trainer.main FLAGS env argv = ([], Raise e)
       ∧ ((length argv ≤ 1)%nat ->
          exists msg, e = ValueError msg
            ∧ py.contains (py.str_optional (federated_trainer.task FLAGS)) msg
            ∧ py.contains (py.str_list federated_trainer._SUPPORTED_TASKS) msg))
  ∧ (forall (env : training_loop.Run)
            (iterative_process_builder : ProcessBuilder P Elt)
            (assign_weights_fn : A)
            (client_epochs_per_round client_batch_size clients_per_round : Z)
            (client_datasets_random_seed : option Z)
            (emnist_model : option string),
       emnist_model ∉ Some <$> federated_emnist.EMNIST_MODELS ->
       exists e,
         federated_emnist.run_federated env iterative_process_builder
           assign_weights_fn client_epochs_per_round client_batch_size
           clients_per_round client_datasets_random_seed emnist_model
         = ([], Raise e)
         ∧ ((exists client0 dataset0,
               let emnist_train :=
                 (federated_emnist.get_emnist_datasets client_batch_size
                    client_epochs_per_round false).1 in
               tff.client_ids emnist_train !! 0%nat = Some client0
               ∧ tff.create_tf_dataset_for_client emnist_train client0
                 = Some dataset0) ->
            exists msg, e = ValueError msg
              ∧ py.contains (py.str_optional emnist_model) msg
              ∧ py.contains (py.str_list federated_emnist.EMNIST_MODELS) msg)).
Proof.
  split.
  - intros FLAGS env argv Htask.
    destruct (decide (length argv ≤ 1)%nat) as [Hargv|Hargv].
    + rewrite (main_unsupported_task FLAGS env argv Hargv Htask).
      eexists. split; [reflexivity|]. intros _. eexists. split; [reflexivity|].
      split; [apply contains_second | apply contains_fourth].
    + unfold federated_trainer.main.
      destruct (decide (1 < length argv)%nat); [|lia].
      eexists. split; [reflexivity|]. intros ?. lia.
  - intros env ipb awf epochs bs k seed emnist_model Hmodel.
    destruct (emnist_unsupported_model ipb awf epochs bs k seed emnist_model Hmodel)
      as [[e He] Hmsg].
    unfold federated_emnist.run_federated. rewrite He.
    eexists. split; [reflexivity|]. intros Hdata.
    specialize (Hmsg Hdata). rewrite He in Hmsg. injection Hmsg as ->.
    eexists. split; [reflexivity|].
    split; [apply contains_second | apply contains_fourth].
Qed.

End invalid_names.

(** The scenario with the task [bar] and with the EMNIST model [foo]. *)
Lemma invalid_names_are_fatal_witness :
  (exists msg,
     @federated_trainer.main Z nat Z Z (list Z) scenario.emnist
       scenario.stackoverflow scenario.process scenario.lcg scenario.keras_ops
       scenario.other_drivers (scenario.flags (Some "bar") "cnn") scenario.env []
     = ([], Raise (ValueError msg))
     ∧ py.contains "bar" msg
     ∧ py.contains (py.str_list federated_trainer._SUPPORTED_TASKS) msg)
  ∧ (exists msg,
       @federated_emnist.run_federated (federated_trainer.Process Z) Z nat Z _
         Z (list Z) scenario.emnist scenario.process scenario.lcg
         scenario.keras_ops scenario.env
         federated_trainer.iterative_process_builder
         federated_trainer.assign_weights_fn 1 20 2 (Some 1) (Some "foo")
       = ([], Raise (ValueError msg))
       ∧ py.contains "foo" msg
       ∧ py.contains (py.str_list federated_emnist.EMNIST_MODELS) msg).
Proof.
  destruct (@invalid_names_are_fatal Z nat Z Z (list Z)
    (federated_trainer.Process Z) fed_avg_schedule.assign_weights_fn
    scenario.emnist scenario.stackoverflow scenario.process scenario.process
    scenario.lcg scenario.keras_ops scenario.keras_ops scenario.other_drivers)
    as [Hmain Hemnist].
  split.
  - destruct (Hmain (scenario.flags (Some "bar") "cnn") scenario.env [])
      as (e & Hrun & Hmsg).
    { vm_compute. intros H. repeat (inversion H as [|? ? ? H']; clear H; rename H' into H). }
    destruct Hmsg as (msg & -> & Hvalue & Hallowed); [simpl; lia|].
    exists msg. split_and!; [exact Hrun | exact Hvalue | exact Hallowed].
  - destruct (Hemnist scenario.env federated_trainer.iterative_process_builder
      federated_trainer.assign_weights_fn 1 20 2 (Some 1) (Some "foo"))
      as (e & Hrun & Hmsg).
    { vm_compute. intros H. repeat (inversion H as [|? ? ? H']; clear H; rename H' into H). }
    destruct Hmsg as (msg & -> & Hvalue & Hallowed).
    { exists "c0", [0]. split; reflexivity. }
    exists msg. split_and!; [exact Hrun | exact Hvalue | exact Hallowed].
Defined.

(** ** The client sampler *)

Section choice.
Context `{!training_utils.RandomState} {A : Type}.
Implicit Types (g : Z) (pool : list A) (size : nat).

(** The index a draw picks is within a non-empty pool. *)
Lemma draw_in_pool g pool :
  pool ≠ [] ->
  is_Some (pool !! Z.to_nat (training_utils.random_int g `mod` Z.of_nat (length pool))).
Proof.
  intros Hne. apply lookup_lt_is_Some.
  assert (0 < length pool)%nat by (destruct pool; [done | simpl; lia]).
  pose proof (Z.mod_pos_bound (training_utils.random_int g)
                (Z.of_nat (length pool))). lia.
Qed.

Lemma choice_length g pool size :
  (size ≤ length pool)%nat -> length (training_utils.choice g pool size) = size.
Proof.
  revert g pool. induction size as [|size IH]; intros g pool Hsize; [reflexivity|].
  cbn [training_utils.choice].
  destruct (draw_in_pool g pool) as [x Hx]; [by destruct pool; [simpl in Hsize; lia|]|].
  rewrite Hx. cbn [length]. f_equal. apply IH.
  rewrite length_delete by eauto. lia.
Qed.

Lemma choice_subseteq g pool size x :
  x ∈ training_utils.choice g pool size -> x ∈ pool.
Proof.
  revert g pool. induction size as [|size IH]; intros g pool; cbn [training_utils.choice].
  - by intros ?%elem_of_nil.
  - destruct (pool !! _) as [y|] eqn:Hy; [|by intros ?%elem_of_nil].
    intros [->|Hin]%elem_of_cons.
    + by eapply list_elem_of_lookup_2.
    + eapply list_elem_of_delete_inv, IH, Hin.
Qed.

Lemma choice_NoDup g pool size :
  NoDup pool -> NoDup (training_utils.choice g pool size).
Proof.
  revert g pool. induction size as [|size IH]; intros g pool Hpool;
    cbn [training_utils.choice]; [constructor|].
  destruct (pool !! _) as [y|] eqn:Hy; [|constructor].
  set (i := Z.to_nat _) in *.
  assert (Hsplit : pool = take i pool ++ y :: drop (S i) pool)
    by (symmetry; by apply take_drop_middle).
  assert (Hrest : NoDup (delete i pool) ∧ y ∉ delete i pool).
  { rewrite delete_take_drop. rewrite Hsplit in Hpool.
    apply NoDup_app in Hpool as (Hl & Hlr & Hr).
    apply NoDup_cons in Hr as [Hy_r Hr].
    split.
    - apply NoDup_app. split_and!; [done| |done].
      intros z Hz Hz'. apply (Hlr z Hz). by right.
    - intros [Hin|Hin]%elem_of_app; [|done].
      apply (Hlr y Hin). by left. }
  destruct Hrest as [Hnd Hy_rest].
  constructor; [|by apply IH].
  intros Hin. by apply Hy_rest, (choice_subseteq (training_utils.advance g) _ size).
Qed.

End choice.

Section sampler.
Context `{!training_utils.RandomState}.
Implicit Types (client_ids : list string) (seed : option Z) (k : Z).

(** Within the number of clients the sampler returns [k] distinct ids. *)
Lemma sample_ok client_ids entropy round_index k seed :
  NoDup client_ids -> 0 ≤ k ≤ Z.of_nat (length client_ids) ->
  exists drawn,
    training_utils.sample client_ids entropy round_index k seed = Ok drawn
    ∧ Z.of_nat (length drawn) = k ∧ NoDup drawn ∧ drawn ⊆ client_ids.
Proof.
  intros Hids Hk. unfold training_utils.sample.
  destruct (Z.ltb_spec (Z.of_nat (length client_ids)) k); [lia|].
  eexists. split; [reflexivity|]. split_and!.
  - rewrite choice_length; lia.
  - by apply choice_NoDup.
  - intros x. apply choice_subseteq.
Qed.

(** C2.  With distinct client ids and a number of clients per round that
    is not negative, the sampler, in every round and with or without a
    seed, either fails with a configuration error, when more clients are
    asked for than there are, or returns exactly [clients_per_round]
    client ids, no id twice, all of them ids of available clients. *)
Theorem sample_distinct_or_configuration_error
    client_ids entropy (round_index : nat) k seed :
  NoDup client_ids -> 0 ≤ k ->
  (Z.of_nat (length client_ids) < k
   ∧ training_utils.sample client_ids entropy round_index k seed
     = Raise (ConfigurationError k (length client_ids)))
  ∨ (k ≤ Z.of_nat (length client_ids)
     ∧ exists drawn,
         training_utils.sample client_ids entropy round_index k seed = Ok drawn
         ∧ Z.of_nat (length drawn) = k ∧ NoDup drawn ∧ drawn ⊆ client_ids).
Proof.
  intros Hids Hk.
  destruct (decide (Z.of_nat (length client_ids) < k)) as [Hmore|Hfew].
  - left. split; [done|]. unfold training_utils.sample.
    by destruct (Z.ltb_spec (Z.of_nat (length client_ids)) k); [|lia].
  - right. split; [lia|]. apply sample_ok; [done | lia].
Qed.

(** C1.  Under a seed, two runs of the sampler over the same round
    indices return the same sequence of results, whatever entropy the
    runs find and however many sampler calls came before; and the result
    for a round is a function of the seed and the round index (for the
    given client ids and number of clients per round). *)
Theorem seeded_sampler_is_reproducible client_ids k (s : Z) (rounds : list nat)
    (entropy1 entropy2 : nat -> Z) (calls1 calls2 : nat) :
  training_utils.sample_rounds client_ids entropy1 calls1 k (Some s) rounds
  = training_utils.sample_rounds client_ids entropy2 calls2 k (Some s) rounds
  ∧ training_utils.sample_rounds client_ids entropy1 calls1 k (Some s) rounds
    = (fun r => training_utils.sample client_ids 0 r k (Some s)) <$> rounds.
Proof.
  assert (Hfn : forall entropy calls,
    training_utils.sample_rounds client_ids entropy calls k (Some s) rounds
    = (fun r => training_utils.sample client_ids 0 r k (Some s)) <$> rounds).
  { intros entropy calls. revert calls.
    induction rounds as [|r rounds IH]; intros calls; [reflexivity|].
    cbn [training_utils.sample_rounds fmap list_fmap]. f_equal. apply IH. }
  split; [by rewrite !Hfn | apply Hfn].
Qed.

(** Under a seed, the datasets a round gets do not depend on the entropy
    of the run. *)
Lemma seeded_client_datasets {Elt : Type}
    (fn : training_utils.ClientDatasetsFn Elt) (s entropy1 entropy2 : Z)
    (round_num : nat) :
  training_utils.random_seed fn = Some s ->
  training_utils.client_datasets fn entropy1 round_num
  = training_utils.client_datasets fn entropy2 round_num.
Proof.
  intros Hseed. unfold training_utils.client_datasets, training_utils.sample.
  by rewrite Hseed.
Qed.

End sampler.

(** The sampler of the scenario: two of five clients; six are too many. *)
Lemma sample_distinct_or_configuration_error_witness :
  (NoDup scenario.ids ∧ 0 ≤ 2)
  ∧ @training_utils.sample scenario.lcg scenario.ids 0 0 2 (Some 1)
    = Ok ["c1"; "c2"]
  ∧ @training_utils.sample scenario.lcg scenario.ids 0 0 6 (Some 1)
    = Raise (ConfigurationError 6 5).
Proof.
  assert (Hids : NoDup scenario.ids) by (apply (bool_decide_unpack _); vm_compute; exact I).
  split; [split; [exact Hids | lia]|].
  split.
  - destruct (@sample_distinct_or_configuration_error scenario.lcg
      scenario.ids 0 0%nat 2 (Some 1) Hids ltac:(lia))
      as [[Hmore _]|(_ & drawn & Hdrawn & _)]; [simpl in Hmore; lia|].
    reflexivity.
  - destruct (@sample_distinct_or_configuration_error scenario.lcg
      scenario.ids 0 0%nat 6 (Some 1) Hids ltac:(lia))
      as [[_ Hraise]|(Hfew & _)]; [exact Hraise | simpl in Hfew; lia].
Defined.

(** Without a seed the result depends on the entropy of the run. *)
Example unseeded_sampler_depends_on_entropy :
  @training_utils.sample scenario.lcg scenario.ids 0 0 2 None = Ok ["c0"; "c4"]
  ∧ @training_utils.sample scenario.lcg scenario.ids 1 0 2 None = Ok ["c0"; "c3"].
Proof. split; reflexivity. Qed.

(** ** The round loop *)

Section before.
Context {E : Type}.
Implicit Types (e : E) (trace : list E).

Lemma before_intro l1 e1 l2 e2 : e2 ∈ l2 -> before e1 e2 (l1 ++ e1 :: l2).
Proof.
  intros (l2a & l2b & ->)%list_elem_of_split. by exists l1, l2a, l2b.
Qed.

Lemma before_app_l pre e1 e2 trace : before e1 e2 trace -> before e1 e2 (pre ++ trace).
Proof.
  intros (l1 & l2 & l3 & ->). exists (pre ++ l1), l2, l3. by rewrite <- app_assoc.
Qed.

Lemma before_app_r post e1 e2 trace : before e1 e2 trace -> before e1 e2 (trace ++ post).
Proof.
  intros (l1 & l2 & l3 & ->). exists l1, l2, (l3 ++ post).
  by rewrite <- !app_assoc, <- !app_comm_cons, <- app_assoc.
Qed.

End before.

Section resolve.
Context {Elt : Type} (data : tff.ClientData Elt).

Lemma resolve_ok (ids : list string) :
  (forall id, id ∈ ids -> is_Some (tff.create_tf_dataset_for_client data id)) ->
  exists datasets,
    training_utils.resolve data ids = Ok datasets ∧ length datasets = length ids.
Proof.
  induction ids as [|id ids IH]; intros Hres; [by exists []|].
  destruct (Hres id) as [ds Hds]; [by left|].
  destruct IH as (rest & Hrest & Hlen); [intros id' Hid'; apply Hres; by right|].
  exists (ds :: rest). cbn [training_utils.resolve]. rewrite Hds, Hrest.
  split; [reflexivity | simpl; by rewrite Hlen].
Qed.

End resolve.

Section round_loop.
Context {P St T Elt A KModel Metrics : Type}.
Context `{!tff.IterativeProcess P St T Elt} `{!training_utils.RandomState}.
Context `{!training_utils.Keras A St Elt KModel Metrics}.
Variable env : training_loop.Run.
Variable args : training_loop.RunArgs P Elt A.

Let fn := training_loop.client_datasets_fn args.
Let data := training_utils.train_dataset fn.
Let k := training_utils.train_clients_per_round fn.

Hypothesis distinct_ids : NoDup (tff.client_ids data).
Hypothesis enough_clients : 0 ≤ k ≤ Z.of_nat (length (tff.client_ids data)).
Hypothesis resolvable :
  forall id, id ∈ tff.client_ids data ->
    is_Some (tff.create_tf_dataset_for_client data id).

(** Every call of the sampler of the loop gives the datasets of [k]
    distinct clients. *)
Lemma client_datasets_ok (entropy : Z) (round_num : nat) :
  exists datasets,
    training_utils.client_datasets fn entropy round_num = Ok datasets
    ∧ datasets_of_distinct_clients data k datasets.
Proof.
  destruct (sample_ok (tff.client_ids data) entropy round_num k
              (training_utils.random_seed fn) distinct_ids enough_clients)
    as (ids & Hsample & Hlen & Hnodup & Hsub).
  destruct (resolve_ok data ids) as (datasets & Hres & Hdlen).
  { intros id Hid. apply resolvable, Hsub, Hid. }
  exists datasets. split.
  - unfold training_utils.client_datasets. fold data k.
    rewrite Hsample. exact Hres.
  - by exists ids.
Qed.

(** The rounds [r .. r + n - 1] from a server state: they complete; they
    call neither [initialize] nor the test evaluation; they call [next]
    once per round, in the order of the round indices, on the datasets of
    [k] distinct clients; the first round trains the given state, and the
    sampling and the training of every later round come after the commit
    of the state the round before returned, which is the state the later
    round trains. *)
Lemma rounds_trace (n r : nat) (state : St) :
  exists trace final,
    training_loop.rounds env args n r state = (trace, Ok final)
    ∧ initialize_calls trace = []
    ∧ (fun c => c.1.1) <$> next_calls trace = seq r n
    ∧ (forall c, c ∈ next_calls trace -> datasets_of_distinct_clients data k c.2)
    ∧ (forall q ds, training_loop.ClientDatasets q ds ∈ trace ->
         q = r ∨ exists q' s m,
           q = S q'
           ∧ before (training_loop.Commit q' s m)
               (training_loop.ClientDatasets q ds) trace)
    ∧ (forall q s ds, training_loop.Next q s ds ∈ trace ->
         (q = r ∧ s = state) ∨ exists q' m,
           q = S q'
           ∧ before (training_loop.Commit q' s m)
               (training_loop.Next q s ds) trace)
    ∧ (forall q s ds, training_loop.Next q s ds ∈ trace ->
         let returned := tff.next (training_loop.iterative_process args) s ds in
         before (training_loop.Next q s ds)
           (training_loop.Commit q returned.1 returned.2) trace).
Proof.
  revert r state. induction n as [|n IH]; intros r state.
  { exists [], state. split_and!; try done.
    - intros c Hc. by apply elem_of_nil in Hc.
    - intros q ds Hin. by apply elem_of_nil in Hin.
    - intros q s ds Hin. by apply elem_of_nil in Hin.
    - intros q s ds Hin. by apply elem_of_nil in Hin. }
  cbn [training_loop.rounds]. fold fn.
  destruct (client_datasets_ok (training_loop.entropy env r) r)
    as (datasets & -> & Hdistinct).
  destruct (tff.next (training_loop.iterative_process args) state datasets)
    as [state' metrics] eqn:Hreturned.
  destruct (IH (S r) state')
    as (trace & final & -> & Hinit & Hnext & Hsets & Hsample & Htrain & Hcommit).
  set (validation := if training_loop.eval_due env r then _ else _).
  assert (Hval : forall e, e ∈ validation ->
            exists q m, e = training_loop.Validation q m).
  { intros e. unfold validation. destruct (training_loop.eval_due env r).
    - intros ->%list_elem_of_singleton. eauto.
    - by intros ?%elem_of_nil. }
  assert (Hval_init : initialize_calls validation = [])
    by (unfold validation; by destruct (training_loop.eval_due env r)).
  assert (Hval_next : next_calls (Elt:=Elt) validation = [])
    by (unfold validation; by destruct (training_loop.eval_due env r)).
  eexists _, final. split; [reflexivity|]. split_and!.
  - unfold initialize_calls in *. cbn [app omap list_omap].
    by rewrite !omap_app, Hval_init, Hinit.
  - unfold next_calls in *. cbn [app omap list_omap].
    rewrite !omap_app, Hval_next. cbn [app fmap list_fmap fst].
    by rewrite Hnext.
  - unfold next_calls in *. cbn [app omap list_omap].
    rewrite !omap_app, Hval_next. cbn [app].
    intros c [->|Hc]%elem_of_cons; [exact Hdistinct | by apply Hsets].
  - intros q ds. cbn [app].
    rewrite !elem_of_cons, elem_of_app.
    intros [Heq|[Heq|[Heq|[Hin|Hin]]]]; try discriminate.
    + injection Heq as -> ->. by left.
    + apply Hval in Hin as (? & ? & ?). discriminate.
    + right. destruct (Hsample q ds Hin) as [->|(q' & s & m & -> & Hbefore)].
      * exists r, state', metrics. split; [reflexivity|].
        apply (before_intro [_; _]). apply elem_of_app. by right.
      * exists q', s, m. split; [reflexivity|].
        apply (before_app_l [_; _; _]), before_app_l, Hbefore.
  - intros q s ds. cbn [app].
    rewrite !elem_of_cons, elem_of_app.
    intros [Heq|[Heq|[Heq|[Hin|Hin]]]]; try discriminate.
    + injection Heq as -> -> ->. by left.
    + apply Hval in Hin as (? & ? & ?). discriminate.
    + right. destruct (Htrain q s ds Hin) as [[-> ->]|(q' & m & -> & Hbefore)].
      * exists r, metrics. split; [reflexivity|].
        apply (before_intro [_; _]). apply elem_of_app. by right.
      * exists q', m. split; [reflexivity|].
        apply (before_app_l [_; _; _]), before_app_l, Hbefore.
  - intros q s ds. cbn [app].
    rewrite !elem_of_cons, elem_of_app.
    intros [Heq|[Heq|[Heq|[Hin|Hin]]]]; try discriminate.
    + injection Heq as -> -> ->. rewrite Hreturned. cbn [fst snd].
      apply (before_intro [_]). by left.
    + apply Hval in Hin as (? & ? & ?). discriminate.
    + apply (before_app_l [_; _; _]), before_app_l, Hcommit, Hin.
Qed.

(** A run of the round loop whose training data has distinct client
    ids, every one of which resolves to a dataset, and at least
    [clients_per_round] clients, completes, and in its trace:
    [initialize] is called exactly once, as the first step; [next] is
    called exactly [total_rounds] times, for the round indices
    [0 .. total_rounds - 1] in that order; every call of [next] receives
    the datasets of exactly [clients_per_round] distinct clients; the
    first call trains the initial state; the state [next] returns is
    committed after the call; and the sampling and the training of round
    [r + 1] come after the commit of round [r], whose state round [r + 1]
    trains. *)
Theorem run_initializes_once_and_trains_every_round :
  exists trace final,
    training_loop.run env args = (trace, Ok final)
    ∧ (exists tail,
         trace = training_loop.Initialize
                   (tff.initialize (training_loop.iterative_process args)) :: tail)
    ∧ initialize_calls trace
      = [tff.initialize (training_loop.iterative_process args)]
    ∧ length (next_calls trace) = training_loop.total_rounds env
    ∧ (fun c => c.1.1) <$> next_calls trace = seq 0 (training_loop.total_rounds env)
    ∧ (forall c, c ∈ next_calls trace ->
         datasets_of_distinct_clients data k c.2 ∧ Z.of_nat (length c.2) = k)
    ∧ (forall s ds, training_loop.Next 0 s ds ∈ trace ->
         s = tff.initialize (training_loop.iterative_process args))
    ∧ (forall q s ds, training_loop.Next q s ds ∈ trace ->
         let returned := tff.next (training_loop.iterative_process args) s ds in
         before (training_loop.Next q s ds)
           (training_loop.Commit q returned.1 returned.2) trace)
    ∧ (forall r ds, training_loop.ClientDatasets (S r) ds ∈ trace ->
         exists s m,
           before (training_loop.Commit r s m)
             (training_loop.ClientDatasets (S r) ds) trace)
    ∧ (forall r s ds, training_loop.Next (S r) s ds ∈ trace ->
         exists m,
           before (training_loop.Commit r s m)
             (training_loop.Next (S r) s ds) trace).
Proof.
  unfold training_loop.run.
  destruct (rounds_trace (training_loop.total_rounds env) 0
              (tff.initialize (training_loop.iterative_process args)))
    as (tr & final & -> & Hinit & Hnext & Hsets & Hsample & Htrain & Hcommit).
  set (s0 := tff.initialize (training_loop.iterative_process args)) in *.
  set (test := training_loop.Test _).
  assert (Hnext_calls : next_calls (training_loop.Initialize s0 :: tr ++ [test])
                        = next_calls tr).
  { unfold next_calls. cbn [omap list_omap]. rewrite omap_app.
    cbn [omap list_omap test]. apply app_nil_r. }
  assert (Hin_tr : forall e, (forall s, e ≠ training_loop.Initialize s) ->
            (forall m, e ≠ training_loop.Test m) ->
            e ∈ training_loop.Initialize s0 :: tr ++ [test] -> e ∈ tr).
  { intros e Hi Ht [Heq|Hin]%elem_of_cons; [by destruct (Hi s0)|].
    apply elem_of_app in Hin as [Hin|Heq]; [exact Hin|].
    apply list_elem_of_singleton in Heq. by destruct (Ht _ Heq). }
  assert (Hbefore : forall e1 e2, before e1 e2 tr ->
            before e1 e2 (training_loop.Initialize s0 :: tr ++ [test])).
  { intros e1 e2 Hb. by apply (before_app_l [_]), before_app_r. }
  eexists _, final. split; [reflexivity|]. split_and!.
  - by eexists.
  - unfold initialize_calls in *. cbn [omap list_omap]. rewrite omap_app, Hinit.
    reflexivity.
  - rewrite Hnext_calls. rewrite <- (length_fmap (fun c => c.1.1)), Hnext.
    apply length_seq.
  - by rewrite Hnext_calls.
  - rewrite Hnext_calls. intros c Hc. pose proof (Hsets c Hc) as Hd.
    split; [exact Hd|]. destruct Hd as (ids & _ & Hk & _ & _ & Hlen). lia.
  - intros s ds Hin. apply Hin_tr in Hin; [|done..].
    destruct (Htrain 0%nat s ds Hin) as [[_ ->]|(q' & m & Hq & _)]; [done | lia].
  - intros q s ds Hin. apply Hin_tr in Hin; [|done..].
    apply Hbefore, Hcommit, Hin.
  - intros r ds Hin. apply Hin_tr in Hin; [|done..].
    destruct (Hsample (S r) ds Hin) as [Hq|(q' & s & m & [= <-] & Hb)]; [lia|].
    exists s, m. by apply Hbefore.
  - intros r s ds Hin. apply Hin_tr in Hin; [|done..].
    destruct (Htrain (S r) s ds Hin) as [[Hq _]|(q' & m & [= <-] & Hb)]; [lia|].
    exists m. by apply Hbefore.
Qed.

End round_loop.

(** ** The round loop as the drivers run it *)

Section driver_runs.
Context {P St T Elt A KModel Metrics : Type}.
Context `{!federated_emnist.Datasets Elt} `{!federated_stackoverflow.Datasets Elt}.
Context `{!tff.IterativeProcess P St T Elt} `{!training_utils.RandomState}.
Context `{!training_utils.Keras A St Elt KModel Metrics}.
Implicit Types (env : training_loop.Run)
  (iterative_process_builder : ProcessBuilder P Elt) (assign_weights_fn : A)
  (args : training_loop.RunArgs P Elt A).

(** A sampler that was built has enough clients to draw from. *)
Lemma build_client_datasets_fn_ok (data : tff.ClientData Elt) (k : Z)
    (seed : option Z) (fn : training_utils.ClientDatasetsFn Elt) :
  training_utils.build_client_datasets_fn data k seed = Ok fn ->
  fn = training_utils.mkClientDatasetsFn data k seed
  ∧ k ≤ Z.of_nat (length (tff.client_ids data)).
Proof.
  unfold training_utils.build_client_datasets_fn.
  destruct (Z.ltb_spec (Z.of_nat (length (tff.client_ids data))) k);
    [discriminate|].
  intros [= <-]. by split.
Qed.

Lemma emnist_set_up_sampler iterative_process_builder assign_weights_fn
    (client_epochs_per_round client_batch_size clients_per_round : Z)
    (client_datasets_random_seed : option Z) (emnist_model : option string) args :
  federated_emnist.training_loop_args iterative_process_builder
    assign_weights_fn client_epochs_per_round client_batch_size
    clients_per_round client_datasets_random_seed emnist_model = Ok args ->
  training_utils.build_client_datasets_fn
    (federated_emnist.get_emnist_datasets client_batch_size
       client_epochs_per_round false).1
    clients_per_round client_datasets_random_seed
  = Ok (training_loop.client_datasets_fn args).
Proof.
  unfold federated_emnist.training_loop_args.
  destruct (federated_emnist.get_emnist_datasets _ _ _) as [emnist_train emnist_test].
  destruct (py.index _ _) as [client0|e0]; simpl; [|discriminate].
  destruct (tff.create_tf_dataset_for_client _ _) as [dataset0|]; simpl; [|discriminate].
  destruct (decide _) as [e1|n1]; [|destruct (decide _) as [e2|n2]];
    simpl; try discriminate.
  all: destruct (training_utils.build_client_datasets_fn _ _ _) as [fn|e'];
    simpl; [|discriminate].
  all: by intros [= <-].
Qed.

Lemma stackoverflow_set_up_sampler iterative_process_builder assign_weights_fn
    (client_epochs_per_round client_batch_size clients_per_round : Z)
    (client_datasets_random_seed : option Z)
    (vocab_size num_oov_buckets sequence_length max_elements_per_user
     num_validation_examples embedding_size latent_size num_layers : Z)
    (shared_embedding : bool) args :
  federated_stackoverflow.training_loop_args iterative_process_builder
    assign_weights_fn client_epochs_per_round client_batch_size
    clients_per_round client_datasets_random_seed vocab_size num_oov_buckets
    sequence_length max_elements_per_user num_validation_examples
    embedding_size latent_size num_layers shared_embedding = Ok args ->
  training_utils.build_client_datasets_fn federated_stackoverflow.load_data.1.1
    clients_per_round client_datasets_random_seed
  = Ok (training_loop.client_datasets_fn args).
Proof.
  unfold federated_stackoverflow.training_loop_args.
  destruct federated_stackoverflow.load_data as [[train_clientdata d2] d3].
  destruct (federated_stackoverflow.evaluation_split _ _ _ _)
    as [[validation_set test_set]|e0]; simpl; [|discriminate].
  destruct (training_utils.build_client_datasets_fn _ _ _) as [fn|e'];
    simpl; [|discriminate].
  by intros [= <-].
Qed.

(** The loop on arguments whose sampler was built over training data with
    distinct, resolvable client ids. *)
Lemma run_trains_every_round env args (data : tff.ClientData Elt) (k : Z)
    (seed : option Z) :
  training_utils.build_client_datasets_fn data k seed
  = Ok (training_loop.client_datasets_fn args) ->
  NoDup (tff.client_ids data) ->
  (forall id, id ∈ tff.client_ids data ->
     is_Some (tff.create_tf_dataset_for_client data id)) ->
  0 ≤ k ->
  trains_every_round (training_loop.total_rounds env) args
    (training_loop.run env args).
Proof.
  intros [Hfn Hk]%build_client_datasets_fn_ok Hids Hres Hnonneg.
  apply (run_initializes_once_and_trains_every_round env args);
    rewrite Hfn; simpl; [exact Hids | lia | exact Hres].
Qed.

(** C3, as amended.  A run of the EMNIST driver or of the Stack Overflow
    driver that passes the set-up, over training data whose client ids
    are distinct and all resolve to a dataset, and with a number of
    clients per round that is not negative, completes all its rounds:
    [initialize] is called exactly once, as the first step; [next] is
    called exactly [total_rounds] times, for the round indices
    [0 .. total_rounds - 1] in that order, each time on the datasets of
    exactly [clients_per_round] distinct clients; and the sampling and
    the training of round [r + 1] come after the commit of the state
    that round [r] returned, which is the state round [r + 1] trains. *)
Theorem drivers_initialize_once_and_train_every_round :
  (forall env iterative_process_builder assign_weights_fn
          (client_epochs_per_round client_batch_size clients_per_round : Z)
          (client_datasets_random_seed : option Z) (emnist_model : option string)
          args,
     let emnist_train :=
       (federated_emnist.get_emnist_datasets client_batch_size
          client_epochs_per_round false).1 in
     federated_emnist.training_loop_args iterative_process_builder
       assign_weights_fn client_epochs_per_round client_batch_size
       clients_per_round client_datasets_random_seed emnist_model = Ok args ->
     NoDup (tff.client_ids emnist_train) ->
     (forall id, id ∈ tff.client_ids emnist_train ->
        is_Some (tff.create_tf_dataset_for_client emnist_train id)) ->
     0 ≤ clients_per_round ->
     training_loop.client_datasets_fn args
     = training_utils.mkClientDatasetsFn emnist_train clients_per_round
         client_datasets_random_seed
     ∧ trains_every_round (training_loop.total_rounds env) args
         (federated_emnist.run_federated env iterative_process_builder
            assign_weights_fn client_epochs_per_round client_batch_size
            clients_per_round client_datasets_random_seed emnist_model))
  ∧ (forall env iterative_process_builder assign_weights_fn
            (client_epochs_per_round client_batch_size clients_per_round : Z)
            (client_datasets_random_seed : option Z)
            (vocab_size num_oov_buckets sequence_length max_elements_per_user
             num_validation_examples embedding_size latent_size num_layers : Z)
            (shared_embedding : bool) args,
       let train_clientdata := federated_stackoverflow.load_data.1.1 in
       federated_stackoverflow.training_loop_args iterative_process_builder
         assign_weights_fn client_epochs_per_round client_batch_size
         clients_per_round client_datasets_random_seed vocab_size
         num_oov_buckets sequence_length max_elements_per_user
         num_validation_examples embedding_size latent_size num_layers
         shared_embedding = Ok args ->
       NoDup (tff.client_ids train_clientdata) ->
       (forall id, id ∈ tff.client_ids train_clientdata ->
          is_Some (tff.create_tf_dataset_for_client train_clientdata id)) ->
       0 ≤ clients_per_round ->
       training_loop.client_datasets_fn args
       = training_utils.mkClientDatasetsFn train_clientdata clients_per_round
           client_datasets_random_seed
       ∧ trains_every_round (training_loop.total_rounds env) args
           (federated_stackoverflow.run_federated env iterative_process_builder
              assign_weights_fn client_epochs_per_round client_batch_size
              clients_per_round client_datasets_random_seed vocab_size
              num_oov_buckets sequence_length max_elements_per_user
              num_validation_examples embedding_size latent_size num_layers
              shared_embedding)).
Proof.
  split.
  - intros env ipb awf epochs bs k seed model args emnist_train Hargs Hids Hres Hk.
    pose proof (emnist_set_up_sampler _ _ _ _ _ _ _ _ Hargs) as Hbuild.
    fold emnist_train in Hbuild.
    split; [by apply build_client_datasets_fn_ok in Hbuild as [-> _]|].
    unfold federated_emnist.run_federated. rewrite Hargs.
    by apply (run_trains_every_round env args emnist_train k seed).
  - intros env ipb awf epochs bs k seed vs ob sl me nv es ls nl se args
      train_clientdata Hargs Hids Hres Hk.
    pose proof (stackoverflow_set_up_sampler _ _ _ _ _ _ _ _ _ _ _ _ _ _ _ _ Hargs)
      as Hbuild.
    fold train_clientdata in Hbuild.
    split; [by apply build_client_datasets_fn_ok in Hbuild as [-> _]|].
    unfold federated_stackoverflow.run_federated. rewrite Hargs.
    by apply (run_trains_every_round env args train_clientdata k seed).
Qed.

End driver_runs.

(** The end-to-end scenario: three rounds, two of five clients per round,
    a fixed seed, in the EMNIST driver and in the Stack Overflow driver. *)
Lemma drivers_initialize_once_and_train_every_round_witness :
  (NoDup scenario.ids
   ∧ (forall id, id ∈ scenario.ids -> is_Some (scenario.examples !! id))
   ∧ 0 ≤ 2)
  ∧ (exists trace final,
       @federated_emnist.run_federated (federated_trainer.Process Z) Z nat Z _
         Z (list Z) scenario.emnist scenario.process scenario.lcg
         scenario.keras_ops scenario.env
         federated_trainer.iterative_process_builder
         federated_trainer.assign_weights_fn 1 20 2 (Some 1) (Some "cnn")
       = (trace, Ok final)
       ∧ initialize_calls trace = [0]
       ∧ length (next_calls trace) = 3%nat
       ∧ (fun c => c.1.1) <$> next_calls trace = [0; 1; 2]%nat
       ∧ forall c, c ∈ next_calls trace -> Z.of_nat (length c.2) = 2)
  ∧ (exists trace final,
       @federated_stackoverflow.run_federated (federated_trainer.Process Z) Z
         nat Z _ Z (list Z) scenario.stackoverflow scenario.process scenario.lcg
         scenario.keras_ops scenario.env
         federated_trainer.iterative_process_builder
         federated_trainer.assign_weights_fn 1 20 2 (Some 1)
         10000 1 20 1000 1 96 670 1 false
       = (trace, Ok final)
       ∧ initialize_calls trace = [0]
       ∧ length (next_calls trace) = 3%nat).
Proof.
  assert (Hids : NoDup scenario.ids)
    by (apply (bool_decide_unpack _); vm_compute; exact I).
  assert (Hres : forall id, id ∈ scenario.ids -> is_Some (scenario.examples !! id)).
  { intros id Hid. unfold scenario.ids in Hid.
    repeat (apply elem_of_cons in Hid as [->|Hid]; [eexists; reflexivity|]).
    by apply elem_of_nil in Hid. }
  assert (Hk : 0 ≤ 2) by lia.
  split; [by split_and!|].
  destruct (@drivers_initialize_once_and_train_every_round
    (federated_trainer.Process Z) Z nat Z fed_avg_schedule.assign_weights_fn
    Z (list Z) scenario.emnist scenario.stackoverflow scenario.process
    scenario.lcg scenario.keras_ops) as [Hemnist Hstackoverflow].
  split.
  - destruct (Hemnist scenario.env federated_trainer.iterative_process_builder
      federated_trainer.assign_weights_fn 1 20 2 (Some 1) (Some "cnn") _
      eq_refl Hids Hres Hk)
      as (_ & trace & final & Hrun & _ & Hinit & Hlen & Hrounds & Hsets & _).
    exists trace, final. split_and!.
    + exact Hrun.
    + exact Hinit.
    + exact Hlen.
    + exact Hrounds.
    + intros c Hc. by destruct (Hsets c Hc).
  - destruct (Hstackoverflow scenario.env
      federated_trainer.iterative_process_builder
      federated_trainer.assign_weights_fn 1 20 2 (Some 1)
      10000 1 20 1000 1 96 670 1 false _ eq_refl Hids Hres Hk)
      as (_ & trace & final & Hrun & _ & Hinit & Hlen & _).
    exists trace, final. split_and!; [exact Hrun | exact Hinit | exact Hlen].
Defined.

(** C3, as stated for every experiment run, fails for the runs that do not
    complete.  With six clients per round and five clients the set-up of
    the EMNIST driver fails: [initialize] is not called at all.  With
    two clients per round and a provider that cannot resolve the sampled
    client [c1], [initialize] is called once and round 0 fails: [next] is
    never called, in a run of three rounds. *)
Lemma failed_runs_skip_rounds :
  (exists trace,
     @federated_emnist.run_federated (federated_trainer.Process Z) Z nat Z _
       Z (list Z) scenario.emnist scenario.process scenario.lcg
       scenario.keras_ops scenario.env
       federated_trainer.iterative_process_builder
       federated_trainer.assign_weights_fn 1 20 6 (Some 1) (Some "cnn")
     = (trace, Raise (ConfigurationError 6 5))
     ∧ initialize_calls trace = []
     ∧ length (next_calls trace) ≠ training_loop.total_rounds scenario.env)
  ∧ (exists trace,
       @federated_emnist.run_federated (federated_trainer.Process Z) Z nat Z _
         Z (list Z) scenario.partial_emnist scenario.process scenario.lcg
         scenario.keras_ops scenario.env
         federated_trainer.iterative_process_builder
         federated_trainer.assign_weights_fn 1 20 2 (Some 1) (Some "cnn")
       = (trace, Raise (DataResolutionError "c1"))
       ∧ initialize_calls trace = [0]
       ∧ next_calls trace = []
       ∧ length (next_calls trace) ≠ training_loop.total_rounds scenario.env).
Proof.
  split.
  - eexists. split; [vm_compute; reflexivity|]. split; [reflexivity | discriminate].
  - eexists. split; [vm_compute; reflexivity|].
    split_and!; [reflexivity | reflexivity | discriminate].
Qed.

(** ** Reproduction of a seeded experiment *)

Section reproduction.
Context {P St T Elt A KModel Metrics : Type}.
Context `{!tff.IterativeProcess P St T Elt} `{!training_utils.RandomState}.
Context `{!training_utils.Keras A St Elt KModel Metrics}.

(** Two runs with the same arguments, number of rounds and validation
    cadence, and a seeded sampler, take the same steps, whatever entropy
    each run finds. *)
Lemma seeded_run_is_reproducible (args : training_loop.RunArgs P Elt A)
    (s : Z) (total_rounds : nat) (eval_due : nat -> bool)
    (entropy1 entropy2 : nat -> Z) :
  training_utils.random_seed (training_loop.client_datasets_fn args) = Some s ->
  training_loop.run (training_loop.mkRun total_rounds eval_due entropy1) args
  = training_loop.run (training_loop.mkRun total_rounds eval_due entropy2) args.
Proof.
  intros Hseed. unfold training_loop.run. cbn [training_loop.total_rounds].
  assert (Hrounds : forall n r state,
    training_loop.rounds (training_loop.mkRun total_rounds eval_due entropy1)
      args n r state
    = training_loop.rounds (training_loop.mkRun total_rounds eval_due entropy2)
        args n r state).
  { induction n as [|n IH]; intros r state; [reflexivity|].
    cbn [training_loop.rounds training_loop.entropy training_loop.eval_due].
    rewrite (seeded_client_datasets _ s (entropy1 r) (entropy2 r) r Hseed).
    destruct (training_utils.client_datasets _ _ _) as [datasets|e]; [|reflexivity].
    destruct (tff.next _ _ _) as [state' metrics]. by rewrite IH. }
  by rewrite Hrounds.
Qed.

End reproduction.

(** * Part III: further properties of the drivers and of [main] *)

(** ** The keyword arguments [main] collects from the flags *)

Section prefixes.
Implicit Types (p s k : string).

Lemma startswith_app p k : py.startswith p (p +:+ k) = true.
Proof.
  unfold py.startswith. induction p as [|c p IH]; [by destruct k|].
  change (String c p +:+ k) with (String c (p +:+ k)).
  cbn [String.prefix]. by destruct (Ascii.ascii_dec c c).
Qed.

Lemma startswith_split p s :
  py.startswith p s = true -> s = p +:+ py.slice_from (String.length p) s.
Proof.
  unfold py.startswith. revert s.
  induction p as [|c p IH]; intros s; [reflexivity|].
  destruct s as [|c' s]; cbn [String.prefix]; [discriminate|].
  destruct (Ascii.ascii_dec c c') as [->|]; [|discriminate].
  intros Hp. cbn [String.length py.slice_from].
  change (String c' p +:+ py.slice_from (String.length p) s)
    with (String c' (p +:+ py.slice_from (String.length p) s)).
  by rewrite <- (IH s Hp).
Qed.

Lemma slice_from_app p k : py.slice_from (String.length p) (p +:+ k) = k.
Proof. induction p as [|c p IH]; [by destruct k | exact IH]. Qed.

End prefixes.

Section flags_with_prefix.
Implicit Types (all_flags : gmap string federated_trainer.flag_value).

(** X3.  The loop that collects the flags of a prefix strips the prefix
    and loses nothing: when the number of characters it drops is the
    length of the prefix, the value it files under a key is the value of
    the flag named by the prefix followed by the key, and a key is present
    exactly when that flag is defined. *)
Theorem flags_with_prefix_lookup (prefix : string) all_flags (key : string) :
  federated_trainer.flags_with_prefix prefix (String.length prefix) all_flags !! key
  = all_flags !! (prefix +:+ key).
Proof.
  unfold federated_trainer.flags_with_prefix. revert key.
  apply (map_fold_weak_ind (fun flags (m : gmap string federated_trainer.flag_value) =>
           forall key, flags !! key = m !! (prefix +:+ key))).
  - intros key. by rewrite !lookup_empty.
  - intros name value m flags Hfresh IH key.
    destruct (py.startswith prefix name) eqn:Hp.
    + pose proof (startswith_split prefix name Hp) as Hname.
      destruct (decide (py.slice_from (String.length prefix) name = key)) as [<-|Hne].
      * by rewrite lookup_insert_eq, <- Hname, lookup_insert_eq.
      * rewrite lookup_insert_ne by done. rewrite lookup_insert_ne; [apply IH|].
        intros ->. by rewrite slice_from_app in Hne.
    + rewrite lookup_insert_ne; [apply IH|].
      intros ->. by rewrite startswith_app in Hp.
Qed.

End flags_with_prefix.

Section driver_arguments.
Implicit Types (FLAGS : federated_trainer.Flags)
  (others : gmap string federated_trainer.flag_value).

Lemma other_flag_not_prefixed (prefix : string) others (key : string) :
  (forall name, is_Some (others !! name) -> py.startswith prefix name = false) ->
  others !! (prefix +:+ key) = None.
Proof.
  intros Hothers. destruct (others !! (prefix +:+ key)) as [v|] eqn:Hv; [|done].
  pose proof (Hothers _ (mk_is_Some _ _ Hv)) as Hp.
  by rewrite startswith_app in Hp.
Qed.

(** X4.  When no flag of another module starts with [so_nwp_], the
    keyword arguments [main] collects for the Stack Overflow
    next-word-prediction driver are the nine task-specific parameters of
    its [run_federated], each with the value of its flag, and nothing
    else: no flag of another task and no common flag is passed twice. *)
Theorem so_nwp_flags_are_the_driver_parameters FLAGS others :
  (forall name, is_Some (others !! name) -> py.startswith "so_nwp_" name = false) ->
  federated_trainer.so_nwp_flags (federated_trainer.flag_values FLAGS ∪ others)
  = list_to_map
      [ ("vocab_size",
           federated_trainer.IntegerFlag (federated_trainer.so_nwp_vocab_size FLAGS));
        ("num_oov_buckets",
           federated_trainer.IntegerFlag (federated_trainer.so_nwp_num_oov_buckets FLAGS));
        ("sequence_length",
           federated_trainer.IntegerFlag (federated_trainer.so_nwp_sequence_length FLAGS));
        ("max_elements_per_user",
           federated_trainer.IntegerFlag
             (federated_trainer.so_nwp_max_elements_per_user FLAGS));
        ("num_validation_examples",
           federated_trainer.IntegerFlag
             (federated_trainer.so_nwp_num_validation_examples FLAGS));
        ("embedding_size",
           federated_trainer.IntegerFlag (federated_trainer.so_nwp_embedding_size FLAGS));
        ("latent_size",
           federated_trainer.IntegerFlag (federated_trainer.so_nwp_latent_size FLAGS));
        ("num_layers",
           federated_trainer.IntegerFlag (federated_trainer.so_nwp_num_layers FLAGS));
        ("shared_embedding",
           federated_trainer.BooleanFlag
             (federated_trainer.so_nwp_shared_embedding FLAGS)) ].
Proof.
  intros Hothers. apply map_eq. intros key.
  unfold federated_trainer.so_nwp_flags.
  change 7%nat with (String.length "so_nwp_").
  rewrite flags_with_prefix_lookup,
    lookup_union_l by (by apply other_flag_not_prefixed).
  unfold federated_trainer.flag_values. cbn [list_to_map foldr fst snd uncurry].
  cbv beta iota fix delta [String.append].
  destruct (decide (key = "vocab_size")) as [->|?]; [reflexivity|].
  destruct (decide (key = "num_oov_buckets")) as [->|?]; [reflexivity|].
  destruct (decide (key = "sequence_length")) as [->|?]; [reflexivity|].
  destruct (decide (key = "max_elements_per_user")) as [->|?]; [reflexivity|].
  destruct (decide (key = "num_validation_examples")) as [->|?]; [reflexivity|].
  destruct (decide (key = "embedding_size")) as [->|?]; [reflexivity|].
  destruct (decide (key = "latent_size")) as [->|?]; [reflexivity|].
  destruct (decide (key = "num_layers")) as [->|?]; [reflexivity|].
  destruct (decide (key = "shared_embedding")) as [->|?]; [reflexivity|].
  repeat first
    [ rewrite lookup_empty
    | rewrite lookup_insert_ne by (intros [=]; congruence)
    | rewrite lookup_insert_eq ].
  reflexivity.
Qed.

(** X5.  When no flag of another module starts with [so_lr_], the keyword
    arguments [main] collects for the Stack Overflow tag-prediction driver
    are the four flags of that task under their names without the prefix,
    and nothing else. *)
Theorem so_lr_flags_are_the_driver_parameters FLAGS others :
  (forall name, is_Some (others !! name) -> py.startswith "so_lr_" name = false) ->
  federated_trainer.so_lr_flags (federated_trainer.flag_values FLAGS ∪ others)
  = list_to_map
      [ ("vocab_tokens_size",
           federated_trainer.IntegerFlag (federated_trainer.so_lr_vocab_tokens_size FLAGS));
        ("vocab_tags_size",
           federated_trainer.IntegerFlag (federated_trainer.so_lr_vocab_tags_size FLAGS));
        ("num_validation_examples",
           federated_trainer.IntegerFlag
             (federated_trainer.so_lr_num_validation_examples FLAGS));
        ("max_elements_per_user",
           federated_trainer.IntegerFlag
             (federated_trainer.so_lr_max_elements_per_user FLAGS)) ].
Proof.
  intros Hothers. apply map_eq. intros key.
  unfold federated_trainer.so_lr_flags.
  change 6%nat with (String.length "so_lr_").
  rewrite flags_with_prefix_lookup,
    lookup_union_l by (by apply other_flag_not_prefixed).
  unfold federated_trainer.flag_values. cbn [list_to_map foldr fst snd uncurry].
  cbv beta iota fix delta [String.append].
  destruct (decide (key = "vocab_tokens_size")) as [->|?]; [reflexivity|].
  destruct (decide (key = "vocab_tags_size")) as [->|?]; [reflexivity|].
  destruct (decide (key = "num_validation_examples")) as [->|?]; [reflexivity|].
  destruct (decide (key = "max_elements_per_user")) as [->|?]; [reflexivity|].
  repeat first
    [ rewrite lookup_empty
    | rewrite lookup_insert_ne by (intros [=]; congruence)
    | rewrite lookup_insert_eq ].
  reflexivity.
Qed.

End driver_arguments.

(** The default flags beside an optimizer flag of another module. *)
Lemma so_nwp_flags_are_the_driver_parameters_witness :
  (forall name,
     is_Some (({["client_optimizer" := federated_trainer.EnumFlag (Some "sgd")]}
                 : gmap string federated_trainer.flag_value) !! name) ->
     py.startswith "so_nwp_" name = false)
  ∧ federated_trainer.so_nwp_flags
      (federated_trainer.flag_values (federated_trainer.default_flags None)
       ∪ {["client_optimizer" := federated_trainer.EnumFlag (Some "sgd")]})
    !! "num_validation_examples"
    = Some (federated_trainer.IntegerFlag 10000).
Proof.
  assert (Hothers : forall name,
    is_Some (({["client_optimizer" := federated_trainer.EnumFlag (Some "sgd")]}
                : gmap string federated_trainer.flag_value) !! name) ->
    py.startswith "so_nwp_" name = false).
  { intros name [v [<- _]%lookup_singleton_Some]. reflexivity. }
  split; [exact Hothers|].
  rewrite (so_nwp_flags_are_the_driver_parameters
             (federated_trainer.default_flags None) _ Hothers).
  reflexivity.
Defined.

Lemma so_lr_flags_are_the_driver_parameters_witness :
  (forall name,
     is_Some (({["client_optimizer" := federated_trainer.EnumFlag (Some "sgd")]}
                 : gmap string federated_trainer.flag_value) !! name) ->
     py.startswith "so_lr_" name = false)
  ∧ federated_trainer.so_lr_flags
      (federated_trainer.flag_values (federated_trainer.default_flags None)
       ∪ {["client_optimizer" := federated_trainer.EnumFlag (Some "sgd")]})
    !! "vocab_tags_size"
    = Some (federated_trainer.IntegerFlag 500).
Proof.
  assert (Hothers : forall name,
    is_Some (({["client_optimizer" := federated_trainer.EnumFlag (Some "sgd")]}
                : gmap string federated_trainer.flag_value) !! name) ->
    py.startswith "so_lr_" name = false).
  { intros name [v [<- _]%lookup_singleton_Some]. reflexivity. }
  split; [exact Hothers|].
  rewrite (so_lr_flags_are_the_driver_parameters
             (federated_trainer.default_flags None) _ Hothers).
  reflexivity.
Defined.

(** ** What [main] does with its arguments *)

Section contains.
Implicit Types (s t u : string) (l : list string).

Lemma string_app_nil_r s : s +:+ "" = s.
Proof.
  induction s as [|c s IH]; [reflexivity|].
  change (String c (s +:+ "") = String c s). by rewrite IH.
Qed.

Lemma contains_prefix_of s t : py.contains s (s +:+ t).
Proof. by exists "", t. Qed.

Lemma contains_app_l s t u : py.contains s t -> py.contains s (u +:+ t).
Proof.
  intros (pre & post & ->). exists (u +:+ pre), post.
  by rewrite string_app_assoc.
Qed.

Lemma contains_app_r s t u : py.contains s t -> py.contains s (t +:+ u).
Proof.
  intros (pre & post & ->). exists pre, (post +:+ u).
  by rewrite !string_app_assoc.
Qed.

Lemma contains_join sep l s : s ∈ l -> py.contains s (py.join sep l).
Proof.
  induction l as [|x l IH]; [by intros ?%elem_of_nil|].
  intros Hin. cbn [py.join]. destruct l as [|y l].
  - apply elem_of_cons in Hin as [->|Hin]; [|by apply elem_of_nil in Hin].
    rewrite <- (string_app_nil_r x) at 2. apply contains_prefix_of.
  - apply elem_of_cons in Hin as [->|Hin]; [apply contains_prefix_of|].
    by apply contains_app_l, contains_app_l, IH.
Qed.

(** The rendering of a list shows every element of it, quoted. *)
Lemma contains_str_list l s : s ∈ l -> py.contains (py.repr_str s) (py.str_list l).
Proof.
  intros Hin. unfold py.str_list.
  apply contains_app_l, contains_app_r, contains_join.
  apply list_elem_of_fmap. by exists s.
Qed.

End contains.

Section main_dispatch.
Context {St T Elt KModel Metrics : Type}.
Context `{!federated_emnist.Datasets Elt} `{!federated_stackoverflow.Datasets Elt}.
Context `{!tff.IterativeProcess (federated_trainer.Process Elt) St T Elt}.
Context `{!training_utils.RandomState}.
Context `{!training_utils.Keras fed_avg_schedule.assign_weights_fn St Elt KModel Metrics}.
Context `{!federated_trainer.OtherDrivers St T Elt Metrics}.
Implicit Types (FLAGS : federated_trainer.Flags) (env : training_loop.Run)
  (argv : list string).

(** X2.  With more than one command-line argument [main] raises a usage
    error before it reads any flag: whatever the task, no driver runs, and
    the message shows every argument, as [repr] writes it. *)
Theorem main_rejects_command_line_arguments FLAGS env argv :
  (1 < length argv)%nat ->
  exists msg,
    federated_trainer.main FLAGS env argv = ([], Raise (UsageError msg))
    ∧ forall arg, arg ∈ argv -> py.contains (py.repr_str arg) msg.
Proof.
  intros Hargv. unfold federated_trainer.main.
  destruct (decide (1 < length argv)%nat); [|lia].
  eexists. split; [reflexivity|].
  intros arg Harg. by apply contains_app_l, contains_str_list.
Qed.


End main_dispatch.

(** The scenario with a stray argument, and with the EMNIST task. *)
Lemma main_rejects_command_line_arguments_witness :
  (1 < length ["federated_trainer.py"; "extra"])%nat
  ∧ exists msg,
      @federated_trainer.main Z nat Z Z (list Z) scenario.emnist
        scenario.stackoverflow scenario.process scenario.lcg scenario.keras_ops
        scenario.other_drivers (scenario.flags (Some "emnist_cr") "cnn")
        scenario.env ["federated_trainer.py"; "extra"]
      = ([], Raise (UsageError msg))
      ∧ py.contains "'extra'" msg.
Proof.
  split; [simpl; lia|].
  destruct (@main_rejects_command_line_arguments Z nat Z Z (list Z)
    scenario.emnist scenario.stackoverflow scenario.process scenario.lcg
    scenario.keras_ops scenario.other_drivers
    (scenario.flags (Some "emnist_cr") "cnn") scenario.env
    ["federated_trainer.py"; "extra"] ltac:(simpl; lia)) as (msg & Hrun & Hshow).
  exists msg. split; [exact Hrun|].
  apply (Hshow "extra"). apply (bool_decide_unpack _). vm_compute. exact I.
Defined.


(** ** The EMNIST driver *)

Section emnist_driver.
Context {P Elt A : Type} `{!federated_emnist.Datasets Elt}.
Implicit Types (iterative_process_builder : ProcessBuilder P Elt)
  (assign_weights_fn : A) (emnist_model : option string)
  (client_datasets_random_seed : option Z).

(** The sampler the round loop gets samples [clients_per_round] clients of
    the training data under the given seed. *)
Lemma emnist_args_sampler iterative_process_builder assign_weights_fn
    (client_epochs_per_round client_batch_size clients_per_round : Z)
    client_datasets_random_seed emnist_model
    (args : training_loop.RunArgs P Elt A) :
  federated_emnist.training_loop_args iterative_process_builder
    assign_weights_fn client_epochs_per_round client_batch_size
    clients_per_round client_datasets_random_seed emnist_model = Ok args ->
  training_loop.client_datasets_fn args
  = training_utils.mkClientDatasetsFn
      (federated_emnist.get_emnist_datasets client_batch_size
         client_epochs_per_round false).1
      clients_per_round client_datasets_random_seed.
Proof.
  unfold federated_emnist.training_loop_args.
  destruct (federated_emnist.get_emnist_datasets _ _ _) as [emnist_train emnist_test].
  destruct (py.index _ _) as [client0|e0]; simpl; [|discriminate].
  destruct (tff.create_tf_dataset_for_client _ _) as [dataset0|]; simpl; [|discriminate].
  destruct (decide _) as [e1|n1]; [|destruct (decide _) as [e2|n2]];
    simpl; try discriminate.
  all: unfold training_utils.build_client_datasets_fn.
  all: destruct (_ <? _); simpl; [discriminate|].
  all: by intros [= <-].
Qed.

(** X14.  With training data that has no client the EMNIST driver fails
    with an [IndexError] on [client_ids[0]], whatever the model name and
    the other arguments are: the element spec is read from the first
    client before anything else is looked at. *)
Theorem emnist_needs_a_client iterative_process_builder assign_weights_fn
    (client_epochs_per_round client_batch_size clients_per_round : Z)
    client_datasets_random_seed emnist_model :
  tff.client_ids
    (federated_emnist.get_emnist_datasets client_batch_size
       client_epochs_per_round false).1 = [] ->
  federated_emnist.training_loop_args iterative_process_builder
    assign_weights_fn client_epochs_per_round client_batch_size
    clients_per_round client_datasets_random_seed emnist_model
  = Raise IndexError.
Proof.
  unfold federated_emnist.training_loop_args.
  destruct (federated_emnist.get_emnist_datasets _ _ _) as [emnist_train emnist_test].
  cbn [fst]. intros Hids. unfold py.index. by rewrite Hids.
Qed.


End emnist_driver.

(** Training data without a client; and the scenario, whose first client
    resolves, with a listed and with an unlisted model name. *)
Lemma emnist_needs_a_client_witness :
  tff.client_ids (tff.mkClientData (Elt:=Z) [] (fun _ => None) []) = []
  ∧ @federated_emnist.training_loop_args (federated_trainer.Process Z) Z _
      {| federated_emnist.get_emnist_datasets := fun _ _ _ =>
           (tff.mkClientData [] (fun _ => None) [], [10; 11]) |}
      federated_trainer.iterative_process_builder
      federated_trainer.assign_weights_fn 1 20 0 (Some 1) (Some "cnn")
    = Raise IndexError.
Proof.
  split; [reflexivity|].
  apply (@emnist_needs_a_client (federated_trainer.Process Z) Z _
    {| federated_emnist.get_emnist_datasets := fun _ _ _ =>
         (tff.mkClientData [] (fun _ => None) [], [10; 11]) |}).
  reflexivity.
Defined.


(** ** Training and evaluation are set up alike *)

Section emnist_consistency.
Context {Elt : Type} `{!federated_emnist.Datasets Elt}.

(** X6.  When the EMNIST driver, called as [main] calls it, reaches the
    round loop, the process trains the model that the evaluation function
    evaluates, with the same loss and the same metrics: the convolutional
    model for [cnn] and the two-hidden-layer model for [2nn], both over
    all characters ([only_digits=False]), sparse categorical
    cross-entropy on probabilities, and sparse categorical accuracy; the
    process gets no dataset preprocessing, and its input spec is the
    element spec of the dataset of the first client. *)
Theorem emnist_trains_what_it_evaluates
    (assign_weights_fn : fed_avg_schedule.assign_weights_fn)
    (client_epochs_per_round client_batch_size clients_per_round : Z)
    (client_datasets_random_seed : option Z) (emnist_model : option string)
    (args : training_loop.RunArgs (federated_trainer.Process Elt) Elt
              fed_avg_schedule.assign_weights_fn) :
  federated_emnist.training_loop_args federated_trainer.iterative_process_builder
    assign_weights_fn client_epochs_per_round client_batch_size
    clients_per_round client_datasets_random_seed emnist_model = Ok args ->
  let trained := fed_avg_schedule.model_fn (training_loop.iterative_process args) in
  let evaluated := training_loop.validation_fn args in
  let emnist_train :=
    (federated_emnist.get_emnist_datasets client_batch_size
       client_epochs_per_round false).1 in
  tff.keras_model trained = training_utils.model_builder evaluated
  ∧ ((emnist_model = Some "cnn"
      ∧ tff.keras_model trained = keras.create_conv_dropout_model false)
     ∨ (emnist_model = Some "2nn"
        ∧ tff.keras_model trained = keras.create_two_hidden_layer_model false))
  ∧ tff.loss trained = training_utils.loss_builder evaluated
  ∧ tff.loss trained = keras.SparseCategoricalCrossentropy false
  ∧ tff.metrics trained = training_utils.metrics_builder evaluated
  ∧ tff.metrics trained = [keras.SparseCategoricalAccuracy]
  ∧ training_utils.assign_weights_to_keras_model evaluated = assign_weights_fn
  ∧ fed_avg_schedule.dataset_preprocess_comp (training_loop.iterative_process args)
    = None
  ∧ exists client0 dataset0,
      tff.client_ids emnist_train !! 0%nat = Some client0
      ∧ tff.create_tf_dataset_for_client emnist_train client0 = Some dataset0
      ∧ tff.input_spec trained = element_spec dataset0.
Proof.
  unfold federated_emnist.training_loop_args, py.index.
  destruct (federated_emnist.get_emnist_datasets _ _ _) as [emnist_train emnist_test].
  cbn [fst].
  destruct (tff.client_ids emnist_train !! 0%nat) as [client0|] eqn:Hc;
    simpl; [|discriminate].
  destruct (tff.create_tf_dataset_for_client _ _) as [dataset0|] eqn:Hd;
    simpl; [|discriminate].
  destruct (decide _) as [e1|n1]; [|destruct (decide _) as [e2|n2]];
    simpl; try discriminate.
  all: destruct (training_utils.build_client_datasets_fn _ _ _) as [fn|e'];
    simpl; [|discriminate].
  all: intros [= <-]; simpl; split_and!; try reflexivity.
  all: first [ by left | by right | by exists client0, dataset0 ].
Qed.

End emnist_consistency.

Section stackoverflow_consistency.
Context {Elt : Type} `{!federated_stackoverflow.Datasets Elt}.

(** The sampler the round loop gets samples [clients_per_round] clients of
    the training data under the given seed. *)
Lemma stackoverflow_args_sampler {P A : Type}
    (iterative_process_builder : ProcessBuilder P Elt) (assign_weights_fn : A)
    (client_epochs_per_round client_batch_size clients_per_round : Z)
    (client_datasets_random_seed : option Z)
    (vocab_size num_oov_buckets sequence_length max_elements_per_user
     num_validation_examples embedding_size latent_size num_layers : Z)
    (shared_embedding : bool) (args : training_loop.RunArgs P Elt A) :
  federated_stackoverflow.training_loop_args iterative_process_builder
    assign_weights_fn client_epochs_per_round client_batch_size
    clients_per_round client_datasets_random_seed vocab_size num_oov_buckets
    sequence_length max_elements_per_user num_validation_examples
    embedding_size latent_size num_layers shared_embedding = Ok args ->
  training_loop.client_datasets_fn args
  = training_utils.mkClientDatasetsFn federated_stackoverflow.load_data.1.1
      clients_per_round client_datasets_random_seed.
Proof.
  unfold federated_stackoverflow.training_loop_args.
  destruct federated_stackoverflow.load_data as [[train_clientdata d2] d3].
  destruct (federated_stackoverflow.evaluation_split _ _ _ _)
    as [[validation_set test_set]|e0]; simpl; [|discriminate].
  unfold training_utils.build_client_datasets_fn.
  destruct (_ <? _); simpl; [discriminate|].
  by intros [= <-].
Qed.

(** X7.  When the Stack Overflow driver, called as [main] calls it,
    reaches the round loop, the process trains the recurrent model that
    both evaluation functions evaluate, with the same loss (sparse
    categorical cross-entropy on logits) and the same five metrics; the
    clients are weighted by [client_weight_fn]; and the training data is
    preprocessed with the vocabulary size, the number of out-of-vocabulary
    buckets and the sequence length with which the held-out data is
    preprocessed, the input spec of the model being that of the
    preprocessed training data. *)
Theorem stackoverflow_trains_what_it_evaluates
    (assign_weights_fn : fed_avg_schedule.assign_weights_fn)
    (client_epochs_per_round client_batch_size clients_per_round : Z)
    (client_datasets_random_seed : option Z)
    (vocab_size num_oov_buckets sequence_length max_elements_per_user
     num_validation_examples embedding_size latent_size num_layers : Z)
    (shared_embedding : bool)
    (args : training_loop.RunArgs (federated_trainer.Process Elt) Elt
              fed_avg_schedule.assign_weights_fn) :
  federated_stackoverflow.training_loop_args
    federated_trainer.iterative_process_builder
    assign_weights_fn client_epochs_per_round client_batch_size
    clients_per_round client_datasets_random_seed vocab_size num_oov_buckets
    sequence_length max_elements_per_user num_validation_examples
    embedding_size latent_size num_layers shared_embedding = Ok args ->
  let process := training_loop.iterative_process args in
  let trained := fed_avg_schedule.model_fn process in
  let model :=
    keras.create_recurrent_model vocab_size num_oov_buckets embedding_size
      latent_size num_layers shared_embedding in
  let metrics :=
    federated_stackoverflow.metrics_builder
      (federated_stackoverflow.get_special_tokens vocab_size num_oov_buckets) in
  let comp :=
    stackoverflow_dataset.create_train_dataset_preprocess_fn
      (stackoverflow_dataset.create_vocab vocab_size) num_oov_buckets
      client_batch_size client_epochs_per_round sequence_length
      max_elements_per_user in
  tff.keras_model trained = model
  ∧ training_utils.model_builder (training_loop.validation_fn args) = model
  ∧ training_utils.model_builder (training_loop.test_fn args) = model
  ∧ tff.loss trained = keras.SparseCategoricalCrossentropy true
  ∧ training_utils.loss_builder (training_loop.validation_fn args)
    = keras.SparseCategoricalCrossentropy true
  ∧ training_utils.loss_builder (training_loop.test_fn args)
    = keras.SparseCategoricalCrossentropy true
  ∧ tff.metrics trained = metrics
  ∧ training_utils.metrics_builder (training_loop.validation_fn args) = metrics
  ∧ training_utils.metrics_builder (training_loop.test_fn args) = metrics
  ∧ length metrics = 5%nat
  ∧ fed_avg_schedule.client_weight_fn process
    = Some federated_stackoverflow.client_weight_fn
  ∧ fed_avg_schedule.dataset_preprocess_comp process = Some comp
  ∧ tff.input_spec trained = type_signature_result_element comp
  ∧ exists (split : list Elt * list Elt) (taken : list Elt),
      federated_stackoverflow.evaluation_split vocab_size num_oov_buckets
        sequence_length num_validation_examples = Ok split
      ∧ tf_data.take num_validation_examples
          (tff.create_tf_dataset_from_all_clients
             federated_stackoverflow.load_data.2) = Ok taken
      ∧ split.1
        = federated_stackoverflow.create_test_dataset_preprocess_fn
            (stackoverflow_dataset.vocab comp)
            (stackoverflow_dataset.num_oov_buckets comp)
            (stackoverflow_dataset.max_seq_len comp) taken.
Proof.
  unfold federated_stackoverflow.training_loop_args,
    federated_stackoverflow.evaluation_split.
  destruct federated_stackoverflow.load_data as [[train_clientdata d2] d3].
  cbn [snd].
  destruct (tf_data.skip _ _) as [skipped|e1]; simpl; [|discriminate].
  destruct (tf_data.take _ _) as [taken|e2]; simpl; [|discriminate].
  destruct (training_utils.build_client_datasets_fn _ _ _) as [fn|e];
    simpl; [|discriminate].
  intros [= <-]. simpl. split_and!; try reflexivity.
  by eexists _, _.
Qed.

End stackoverflow_consistency.

Lemma emnist_trains_what_it_evaluates_witness :
  exists args,
    @federated_emnist.training_loop_args (federated_trainer.Process Z) Z _
      scenario.emnist federated_trainer.iterative_process_builder
      federated_trainer.assign_weights_fn 1 20 2 (Some 1) (Some "2nn") = Ok args
    ∧ tff.keras_model (fed_avg_schedule.model_fn (training_loop.iterative_process args))
      = training_utils.model_builder (training_loop.validation_fn args).
Proof.
  eexists. split; [reflexivity|].
  by destruct (@emnist_trains_what_it_evaluates Z scenario.emnist
    federated_trainer.assign_weights_fn 1 20 2 (Some 1) (Some "2nn") _ eq_refl)
    as [Hmodel _].
Defined.

Lemma stackoverflow_trains_what_it_evaluates_witness :
  exists args,
    @federated_stackoverflow.training_loop_args (federated_trainer.Process Z) Z _
      scenario.stackoverflow federated_trainer.iterative_process_builder
      federated_trainer.assign_weights_fn 1 20 2 (Some 1)
      10000 1 20 1000 1 96 670 1 false = Ok args
    ∧ fed_avg_schedule.client_weight_fn (training_loop.iterative_process args)
      = Some federated_stackoverflow.client_weight_fn.
Proof.
  eexists. split; [reflexivity|].
  by destruct (@stackoverflow_trains_what_it_evaluates Z scenario.stackoverflow
    federated_trainer.assign_weights_fn 1 20 2 (Some 1)
    10000 1 20 1000 1 96 670 1 false _ eq_refl)
    as (_ & _ & _ & _ & _ & _ & _ & _ & _ & _ & Hweight & _).
Defined.

(** ** The metric set: nested exclusion sets *)

(** X8.  The three masked accuracies of the Stack Overflow metric set
    exclude more and more: every token [accuracy_with_oov] excludes is
    excluded by [accuracy_no_oov], and every token that one excludes is
    excluded by [accuracy_no_oov_or_eos]; all three exclude the padding
    token; the token counter masks exactly what [accuracy_with_oov]
    excludes; and the three accuracies have three different names. *)
Theorem exclusion_sets_are_nested (special_tokens : stackoverflow_dataset.SpecialTokens) :
  exists with_oov no_oov no_oov_or_eos counted : list Z,
    federated_stackoverflow.metrics_builder special_tokens
    = [ keras.MaskedCategoricalAccuracy "accuracy_with_oov" with_oov;
        keras.MaskedCategoricalAccuracy "accuracy_no_oov" no_oov;
        keras.MaskedCategoricalAccuracy "accuracy_no_oov_or_eos" no_oov_or_eos;
        keras.NumBatchesCounter;
        keras.NumTokensCounter counted ]
    ∧ with_oov ⊆ no_oov
    ∧ no_oov ⊆ no_oov_or_eos
    ∧ counted = with_oov
    ∧ stackoverflow_dataset.pad special_tokens ∈ with_oov
    ∧ (forall t, t ∈ no_oov_or_eos -> t ∉ no_oov ->
         t = stackoverflow_dataset.eos special_tokens)
    ∧ (forall t, t ∈ no_oov -> t ∉ with_oov ->
         t ∈ stackoverflow_dataset.oov special_tokens)
    ∧ NoDup ((masked_accuracies
                (federated_stackoverflow.metrics_builder special_tokens)).*1).
Proof.
  eexists _, _, _, _. split; [reflexivity|]. split_and!.
  - intros t. rewrite elem_of_app. tauto.
  - intros t. rewrite !elem_of_app, !elem_of_cons. tauto.
  - reflexivity.
  - by left.
  - intros t. rewrite !elem_of_app, !elem_of_cons, !elem_of_nil. tauto.
  - intros t. rewrite !elem_of_app. tauto.
  - apply (bool_decide_unpack _). vm_compute. exact I.
Qed.

(** ** The evaluation split at its ends and the whole held-out dataset *)

Section split_ends.
Context {Elt : Type} `{!federated_stackoverflow.Datasets Elt}.
Implicit Types (vocab_size num_oov_buckets sequence_length : Z).

(** X10.  With no validation example ([num_validation_examples = 0]) the
    validation set is the preprocessing of the empty dataset and the test
    set that of the whole held-out dataset.  With a negative number, or
    one that is at least the size of the held-out dataset, it is the
    other way round, as long as the number converts to [int64]:
    validation is everything and the test set is the preprocessing of the
    empty dataset.  With a number that does not convert to [int64] the
    split fails with a [ValueError]. *)
Theorem evaluation_split_at_the_ends vocab_size num_oov_buckets sequence_length :
  let base_test_dataset :=
    tff.create_tf_dataset_from_all_clients federated_stackoverflow.load_data.2 in
  let preprocess :=
    federated_stackoverflow.create_test_dataset_preprocess_fn
      (stackoverflow_dataset.create_vocab vocab_size) num_oov_buckets
      sequence_length in
  federated_stackoverflow.evaluation_split vocab_size num_oov_buckets
    sequence_length 0
  = Ok (preprocess [], preprocess base_test_dataset)
  ∧ (forall K,
       - 2 ^ 63 ≤ K < 0 ∨ (Z.of_nat (length base_test_dataset) ≤ K ∧ K < 2 ^ 63) ->
       federated_stackoverflow.evaluation_split vocab_size num_oov_buckets
         sequence_length K
       = Ok (preprocess base_test_dataset, preprocess []))
  ∧ (forall K,
       K < - 2 ^ 63 ∨ 2 ^ 63 ≤ K ->
       exists msg,
         federated_stackoverflow.evaluation_split vocab_size num_oov_buckets
           sequence_length K = Raise (ValueError msg)).
Proof.
  intros base_test_dataset preprocess. split_and!.
  - by rewrite evaluation_split_in_range.
  - intros K HK.
    assert (Hint : tf_data.is_int64 K = true) by (apply is_int64_spec; lia).
    rewrite (evaluation_split_in_range _ _ _ K Hint).
    fold base_test_dataset preprocess.
    assert (Hkept : tf_data.kept K base_test_dataset = length base_test_dataset).
    { unfold tf_data.kept. destruct (Z.ltb_spec K 0); [done|lia]. }
    by rewrite Hkept, firstn_all, drop_all.
  - intros K HK.
    assert (Hint : tf_data.is_int64 K = false).
    { destruct (tf_data.is_int64 K) eqn:Hint; [|done].
      apply is_int64_spec in Hint. lia. }
    eexists. by apply evaluation_split_out_of_range.
Qed.

(** X9.  When the preprocessing of the held-out data distributes over
    concatenation (as a preprocessing of single examples does), the test
    function of the Stack Overflow driver evaluates on the preprocessing
    of the entire held-out dataset, whatever the number of validation
    examples is: the entire test set, as in the other experiments. *)
Theorem stackoverflow_test_fn_covers_held_out {P A : Type}
    (iterative_process_builder : ProcessBuilder P Elt) (assign_weights_fn : A)
    (client_epochs_per_round client_batch_size clients_per_round : Z)
    (client_datasets_random_seed : option Z)
    (vocab_size num_oov_buckets sequence_length max_elements_per_user
     num_validation_examples embedding_size latent_size num_layers : Z)
    (shared_embedding : bool) (args : training_loop.RunArgs P Elt A) :
  let preprocess :=
    federated_stackoverflow.create_test_dataset_preprocess_fn
      (stackoverflow_dataset.create_vocab vocab_size) num_oov_buckets
      sequence_length in
  (forall ds1 ds2, preprocess (ds1 ++ ds2) = preprocess ds1 ++ preprocess ds2) ->
  federated_stackoverflow.training_loop_args iterative_process_builder
    assign_weights_fn client_epochs_per_round client_batch_size
    clients_per_round client_datasets_random_seed vocab_size num_oov_buckets
    sequence_length max_elements_per_user num_validation_examples
    embedding_size latent_size num_layers shared_embedding = Ok args ->
  training_utils.eval_dataset (training_loop.test_fn args)
  = preprocess
      (tff.create_tf_dataset_from_all_clients federated_stackoverflow.load_data.2).
Proof.
  intros preprocess Hdistributes.
  unfold federated_stackoverflow.training_loop_args.
  destruct (tf_data.is_int64 num_validation_examples) eqn:Hint.
  - rewrite (evaluation_split_in_range _ _ _ _ Hint).
    destruct federated_stackoverflow.load_data as [[train_clientdata d2] d3].
    simpl.
    destruct (training_utils.build_client_datasets_fn _ _ _) as [fn|e];
      simpl; [|discriminate].
    intros [= <-]. simpl. unfold tf_data.concatenate.
    fold preprocess. by rewrite <- Hdistributes, take_drop.
  - rewrite (evaluation_split_out_of_range _ _ _ _ Hint).
    by destruct federated_stackoverflow.load_data as [[train_clientdata d2] d3].
Qed.

End split_ends.

(** The scenario, whose held-out dataset has two examples and whose
    preprocessing changes nothing. *)
Lemma evaluation_split_at_the_ends_witness :
  ((- 2 ^ 63 ≤ 5 < 0 ∨ (Z.of_nat (length scenario.held_out) ≤ 5 ∧ 5 < 2 ^ 63))
   ∧ (2 ^ 63 < - 2 ^ 63 ∨ 2 ^ 63 ≤ 2 ^ 63))
  ∧ @federated_stackoverflow.evaluation_split Z scenario.stackoverflow 10000 1 20 5
    = Ok ([10; 11], [])
  ∧ exists msg,
      @federated_stackoverflow.evaluation_split Z scenario.stackoverflow
        10000 1 20 (2 ^ 63) = Raise (ValueError msg).
Proof.
  assert (HK : - 2 ^ 63 ≤ 5 < 0
               ∨ (Z.of_nat (length scenario.held_out) ≤ 5 ∧ 5 < 2 ^ 63))
    by (right; simpl; lia).
  assert (Hout : 2 ^ 63 < - 2 ^ 63 ∨ 2 ^ 63 ≤ 2 ^ 63) by (right; lia).
  split; [by split|].
  destruct (@evaluation_split_at_the_ends Z scenario.stackoverflow 10000 1 20)
    as (_ & Hend & Hraise).
  split; [exact (Hend 5 HK) | exact (Hraise (2 ^ 63) Hout)].
Defined.

Lemma stackoverflow_test_fn_covers_held_out_witness :
  exists args,
    (forall ds1 ds2 : list Z, ds1 ++ ds2 = ds1 ++ ds2)
    ∧ @federated_stackoverflow.training_loop_args (federated_trainer.Process Z) Z _
        scenario.stackoverflow federated_trainer.iterative_process_builder
        federated_trainer.assign_weights_fn 1 20 2 (Some 1)
        10000 1 20 1000 1 96 670 1 false = Ok args
    ∧ training_utils.eval_dataset (training_loop.test_fn args) = scenario.held_out.
Proof.
  eexists. split; [reflexivity|]. split; [reflexivity|].
  exact (@stackoverflow_test_fn_covers_held_out Z scenario.stackoverflow
    (federated_trainer.Process Z) _ federated_trainer.iterative_process_builder
    federated_trainer.assign_weights_fn 1 20 2 (Some 1)
    10000 1 20 1000 1 96 670 1 false _ (fun ds1 ds2 => eq_refl) eq_refl).
Defined.

(** ** The client weight of the Stack Overflow task *)

Section cast_error.

(** The cast of a non-negative integer to [float32] is not negative and
    is off by at most the integer over [2 ^ 24]. *)
Lemma round_float32_nonneg_error (m : Z) :
  0 ≤ m ->
  0 ≤ tf.round_float32_nonneg m
  ∧ Z.abs (tf.round_float32_nonneg m - m) * 2 ^ 24 ≤ m.
Proof.
  intros Hm. unfold tf.round_float32_nonneg.
  destruct (Z.ltb_spec (Z.log2 m) 24) as [Hsmall|Hbig].
  { rewrite Z.sub_diag. simpl. lia. }
  assert (Hpos : 0 < m).
  { destruct (decide (m = 0)) as [->|]; [simpl in Hbig; lia | lia]. }
  destruct (Z.log2_spec m Hpos) as [Hlow _].
  set (sh := Z.log2 m - 23) in *.
  assert (Hsh : 1 ≤ sh) by (unfold sh; lia).
  rewrite Z.shiftr_div_pow2, Z.land_ones, !Z.shiftl_mul_pow2 by lia.
  set (h := 2 ^ (sh - 1)).
  assert (Hh : 0 < h) by (apply Z.pow_pos_nonneg; lia).
  assert (HB : 2 ^ sh = 2 * h).
  { unfold h. rewrite <- Z.pow_succ_r by lia. f_equal. lia. }
  assert (Hhm : h * 2 ^ 24 ≤ m).
  { unfold h. rewrite <- Z.pow_add_r by lia.
    replace (sh - 1 + 24) with (Z.log2 m) by (unfold sh; lia). exact Hlow. }
  rewrite HB, Z.mul_1_l.
  pose proof (Z.div_mod m (2 * h) ltac:(lia)) as Hdiv.
  pose proof (Z.mod_pos_bound m (2 * h) ltac:(lia)) as Hmod.
  pose proof (Z.div_pos m (2 * h) ltac:(lia) ltac:(lia)) as Hq.
  set (q := m `div` (2 * h)) in *. set (r := m `mod` (2 * h)) in *.
  change (2 ^ 24) with 16777216 in *.
  destruct ((h <? r) || ((r =? h) && Z.odd q)) eqn:Hup.
  - assert (h ≤ r).
    { apply orb_true_iff in Hup as [Hlt|Htie].
      - apply Z.ltb_lt in Hlt. lia.
      - apply andb_true_iff in Htie as [Heq _]. apply Z.eqb_eq in Heq. lia. }
    split; [nia|]. replace ((q + 1) * (2 * h) - m) with (2 * h - r) by lia. lia.
  - assert (r ≤ h).
    { apply orb_false_iff in Hup as [Hlt _]. apply Z.ltb_ge in Hlt. lia. }
    split; [nia|]. replace (q * (2 * h) - m) with (- r) by lia. lia.
Qed.

End cast_error.

Section client_weight_fn.
Implicit Types (local_outputs : gmap string tf.Tensor).

(** X11.  [client_weight_fn] fails with a [KeyError] on [num_tokens]
    exactly when the locally reported outputs have no such entry (as for
    a metric set without a token counter).  Otherwise it returns a
    [float32] tensor with as many values as the entry has, whose shape is
    the shape of the entry without its dimensions of size 1: a scalar
    for a vector of one element, and still a vector for a longer one. *)
Theorem client_weight_fn_needs_num_tokens local_outputs :
  match local_outputs !! "num_tokens" with
  | None =>
      federated_stackoverflow.client_weight_fn local_outputs
      = Raise (KeyError "num_tokens")
  | Some num_tokens =>
      exists weight,
        federated_stackoverflow.client_weight_fn local_outputs = Ok weight
        ∧ tf.t_dtype weight = tf.float32
        ∧ length (tf.t_values weight) = length (tf.t_values num_tokens)
        ∧ tf.t_shape weight `sublist_of` tf.t_shape num_tokens
        ∧ (1%nat ∉ tf.t_shape weight)
        ∧ (forall d, d ∈ tf.t_shape num_tokens -> d ≠ 1%nat -> d ∈ tf.t_shape weight)
  end.
Proof.
  unfold federated_stackoverflow.client_weight_fn.
  destruct (local_outputs !! "num_tokens") as [num_tokens|]; [|reflexivity].
  eexists. split; [reflexivity|]. cbn. split_and!.
  - reflexivity.
  - apply length_fmap.
  - apply sublist_filter.
  - intros Hin. by apply list_elem_of_filter in Hin as [Hne _].
  - intros d Hd Hne. by apply list_elem_of_filter.
Qed.

(** X12.  A client that reports a token count that is not negative, as
    a vector of one [int64], gets a weight that is a [float32] scalar, is
    not negative, and differs from the count by at most the count over
    [2 ^ 24]; so a client weighs nothing only if it counted no token. *)
Theorem client_weight_is_close_to_count local_outputs (count : Z) :
  local_outputs !! "num_tokens" = Some (tf.vector1 tf.int64 count) ->
  0 ≤ count ->
  exists weight : Z,
    federated_stackoverflow.client_weight_fn local_outputs
    = Ok (tf.scalar tf.float32 weight)
    ∧ 0 ≤ weight
    ∧ Z.abs (weight - count) * 2 ^ 24 ≤ count
    ∧ (weight = 0 -> count = 0).
Proof.
  intros Hlookup Hcount.
  destruct (round_float32_nonneg_error count Hcount) as [Hnonneg Herror].
  assert (Hround : tf.round_float32 count = tf.round_float32_nonneg count).
  { unfold tf.round_float32. rewrite Z.abs_eq by done.
    destruct (decide (count = 0)) as [->|?]; [reflexivity|].
    rewrite Z.sgn_pos by lia. lia. }
  exists (tf.round_float32 count). split_and!.
  - unfold federated_stackoverflow.client_weight_fn. by rewrite Hlookup.
  - by rewrite Hround.
  - by rewrite Hround.
  - rewrite Hround. intros Hzero. rewrite Hzero in Herror.
    change (2 ^ 24) with 16777216 in Herror. lia.
Qed.

End client_weight_fn.

(** A count beyond [2 ^ 24], where the cast is no longer exact. *)
Lemma client_weight_is_close_to_count_witness :
  (({["num_tokens" := tf.vector1 tf.int64 16777219]} : gmap string tf.Tensor)
     !! "num_tokens" = Some (tf.vector1 tf.int64 16777219)
   ∧ 0 ≤ 16777219)
  ∧ exists weight : Z,
      federated_stackoverflow.client_weight_fn
        {["num_tokens" := tf.vector1 tf.int64 16777219]}
      = Ok (tf.scalar tf.float32 weight)
      ∧ 0 ≤ weight
      ∧ Z.abs (weight - 16777219) * 2 ^ 24 ≤ 16777219.
Proof.
  assert (Hlookup :
    ({["num_tokens" := tf.vector1 tf.int64 16777219]} : gmap string tf.Tensor)
      !! "num_tokens" = Some (tf.vector1 tf.int64 16777219)) by reflexivity.
  assert (Hcount : 0 ≤ 16777219) by lia.
  split; [by split|].
  destruct (client_weight_is_close_to_count _ 16777219 Hlookup Hcount)
    as (weight & Hfn & Hnonneg & Herror & _).
  by exists weight.
Defined.

(** ** Runs started by [main] are seeded *)

Section main_seed.
Context {St T Elt KModel Metrics : Type}.
Context `{!federated_emnist.Datasets Elt} `{!federated_stackoverflow.Datasets Elt}.
Context `{!tff.IterativeProcess (federated_trainer.Process Elt) St T Elt}.
Context `{!training_utils.RandomState}.
Context `{!training_utils.Keras fed_avg_schedule.assign_weights_fn St Elt KModel Metrics}.
Context `{!federated_trainer.OtherDrivers St T Elt Metrics}.

(** X13.  [main] hands the seed flag to the driver as a seed that is
    present, so for the EMNIST and the Stack Overflow next-word-prediction
    task two runs of [main] with the same flags, arguments, number of
    rounds and validation cadence take the same steps and end alike,
    whatever entropy each run finds. *)
Theorem main_runs_are_seeded (FLAGS : federated_trainer.Flags)
    (argv : list string) (total_rounds : nat) (eval_due : nat -> bool)
    (entropy1 entropy2 : nat -> Z) :
  federated_trainer.task FLAGS = Some "emnist_cr"
  ∨ federated_trainer.task FLAGS = Some "stackoverflow_nwp" ->
  federated_trainer.main FLAGS
    (training_loop.mkRun total_rounds eval_due entropy1) argv
  = federated_trainer.main FLAGS
      (training_loop.mkRun total_rounds eval_due entropy2) argv.
Proof.
  intros Htask. unfold federated_trainer.main.
  destruct (decide (1 < length argv)%nat); [reflexivity|].
  destruct Htask as [-> | ->].
  - destruct (decide _) as [Heq|_]; [discriminate Heq|].
    destruct (decide _) as [_|Hne]; [|done].
    unfold federated_emnist.run_federated.
    destruct (federated_emnist.training_loop_args _ _ _ _ _ _ _)
      as [args|e] eqn:Hargs; [|reflexivity].
    apply (seeded_run_is_reproducible args
             (federated_trainer.client_datasets_random_seed FLAGS)).
    by rewrite (emnist_args_sampler _ _ _ _ _ _ _ _ Hargs).
  - repeat (destruct (decide _) as [Heq|_]; [discriminate Heq|]).
    destruct (decide _) as [_|Hne]; [|done].
    unfold federated_stackoverflow.run_federated.
    destruct (federated_stackoverflow.training_loop_args _ _ _ _ _ _ _ _ _ _ _ _ _ _ _)
      as [args|e] eqn:Hargs; [|reflexivity].
    apply (seeded_run_is_reproducible args
             (federated_trainer.client_datasets_random_seed FLAGS)).
    by rewrite (stackoverflow_args_sampler _ _ _ _ _ _ _ _ _ _ _ _ _ _ _ _ Hargs).
Qed.

End main_seed.

(** The EMNIST scenario under two different entropies. *)
Lemma main_runs_are_seeded_witness :
  (Some "emnist_cr" = Some "emnist_cr" ∨ Some "emnist_cr" = Some "stackoverflow_nwp")
  ∧ @federated_trainer.main Z nat Z Z (list Z) scenario.emnist
      scenario.stackoverflow scenario.process scenario.lcg scenario.keras_ops
      scenario.other_drivers (scenario.flags (Some "emnist_cr") "cnn")
      (training_loop.mkRun 3 (fun _ => true) (fun _ => 0)) []
    = @federated_trainer.main Z nat Z Z (list Z) scenario.emnist
        scenario.stackoverflow scenario.process scenario.lcg scenario.keras_ops
        scenario.other_drivers (scenario.flags (Some "emnist_cr") "cnn")
        (training_loop.mkRun 3 (fun _ => true) (fun n => Z.of_nat n + 1)) [].
Proof.
  split; [by left|].
  apply (@main_runs_are_seeded Z nat Z Z (list Z) scenario.emnist
    scenario.stackoverflow scenario.process scenario.lcg scenario.keras_ops
    scenario.other_drivers (scenario.flags (Some "emnist_cr") "cnn") []
    3%nat (fun _ => true) (fun _ => 0) (fun n => Z.of_nat n + 1)).
  by left.
Defined.

(** ** A stray argument hides an invalid task *)

Section contains_decided.
Implicit Types (needle hay : string).

Lemma contains_b_complete needle hay :
  py.contains needle hay -> py.contains_b needle hay = true.
Proof.
  intros (pre & post & ->). induction pre as [|c pre IH].
  - change ("" +:+ needle +:+ post) with (needle +:+ post).
    destruct (needle +:+ post) eqn:Heq; cbn [py.contains_b];
      rewrite <- Heq, startswith_app; reflexivity.
  - change (String c pre +:+ needle +:+ post)
      with (String c (pre +:+ needle +:+ post)).
    cbn [py.contains_b]. rewrite IH. apply orb_true_r.
Qed.

End contains_decided.

(** C9, as stated, fails when [main] gets a stray command-line argument:
    with no task given and one argument after the program name, [main]
    fails with a usage error whose message names neither the task nor the
    supported tasks. *)
Lemma stray_argument_hides_the_task :
  exists msg,
    (federated_trainer.task (scenario.flags None "cnn")
       ∉ Some <$> federated_trainer._SUPPORTED_TASKS)
    ∧ @federated_trainer.main Z nat Z Z (list Z) scenario.emnist
        scenario.stackoverflow scenario.process scenario.lcg scenario.keras_ops
        scenario.other_drivers (scenario.flags None "cnn") scenario.env
        ["federated_trainer.py"; "extra"]
      = ([], Raise (UsageError msg))
    ∧ msg = "Expected no command-line arguments, got: ['federated_trainer.py', 'extra']"
    ∧ ¬ py.contains (py.str_optional (federated_trainer.task (scenario.flags None "cnn"))) msg
    ∧ ¬ py.contains (py.str_list federated_trainer._SUPPORTED_TASKS) msg.
Proof.
  eexists. split_and!.
  - vm_compute. intros H.
    repeat (inversion H as [|? ? ? H']; clear H; rename H' into H).
  - vm_compute. reflexivity.
  - reflexivity.
  - intros Hc%contains_b_complete. vm_compute in Hc. discriminate Hc.
  - intros Hc%contains_b_complete. vm_compute in Hc. discriminate Hc.
Qed.
